(** * Blog CRUD service: routes/blogRoutes.js and models/Blog.js

    A shallow embedding of the five route handlers of the blog router
    together with the Mongoose schema they use, and the properties of the
    service proved about them.

    The handlers are glue between three collaborators whose code is not part
    of the repository: express-validator (field validation), Mongoose (schema,
    hooks, queries) and the clock ([Date.now]).  They are modelled here as far
    as the handlers observe them:

    - a text is a JavaScript string, the list of its UTF-16 code units;
      keys, messages and identifiers are plain strings;
    - a request body carries [title], [content], [author] as a text or not
      at all, and [tags] as an array of texts, an array with an item that
      cannot be cast to a text (an object, an array), a text, or not at all;
    - the collection is the list of its documents in natural order;
    - the storage layer may be unreachable, in which case a query fails;
    - [Date.now()] and the ObjectId generator are oracles indexed by the
      number of calls made so far. *)

From Stdlib Require Import ZArith NArith List String Ascii Bool Arith Lia.
From Stdlib Require Import Permutation Sorted.
Import ListNotations.
Local Open Scope string_scope.
Local Open Scope list_scope.

(** ** Text *)

Module Text.

(** A text: the UTF-16 code units of a JavaScript string. *)
Definition t := list N.

(** A text written as a string of characters below U+0100. *)
Definition of_string (s : string) : t := map N_of_ascii (list_ascii_of_string s).

(** [\s] of ECMAScript, which is also what [String.prototype.trim] strips:
    TAB, LF, VT, FF, CR, SPACE, NBSP, U+1680, U+2000..U+200A, U+2028, U+2029,
    U+202F, U+205F, U+3000, U+FEFF. *)
Definition isSpace (c : N) : bool :=
  ((9 <=? c) && (c <=? 13) || (c =? 32) || (c =? 160) || (c =? 5760) ||
   (8192 <=? c) && (c <=? 8202) || (c =? 8232) || (c =? 8233) ||
   (c =? 8239) || (c =? 8287) || (c =? 12288) || (c =? 65279))%N.

(** [str.replace(/^\s+/g, '')] *)
Fixpoint ltrim (s : t) : t :=
  match s with
  | [] => []
  | c :: s' => if isSpace c then ltrim s' else s
  end.

(** Drop the whitespace at the end: the index walks back from the last
    code unit while it is whitespace. *)
Fixpoint rtrim (s : t) : t :=
  match s with
  | [] => []
  | c :: s' =>
      match rtrim s' with
      | [] => if isSpace c then [] else [c]
      | r => c :: r
      end
  end.

Definition trim (s : t) : t := rtrim (ltrim s).

Definition isEmpty (s : t) : bool :=
  match s with [] => true | _ => false end.

(** First and last code unit, when there is one. *)
Definition first (s : t) : option N :=
  match s with [] => None | c :: _ => Some c end.

Fixpoint last (s : t) : option N :=
  match s with
  | [] => None
  | [c] => Some c
  | _ :: s' => last s'
  end.

(** A text carries surrounding whitespace when its first or its last
    code unit is whitespace. *)
Definition padded (s : t) : bool :=
  match first s, last s with
  | Some a, Some b => isSpace a || isSpace b
  | _, _ => false
  end.

(** [str.length]: the number of code units. *)
Definition units (s : t) : nat := List.length s.

Definition isHigh (c : N) : bool := ((55296 <=? c) && (c <=? 56319))%N.

Definition isLow (c : N) : bool := ((56320 <=? c) && (c <=? 57343))%N.

(** [str.match(/[\uD800-\uDBFF][\uDC00-\uDFFF]/g)]: the surrogate pairs,
    matched from left to right without overlap. *)
Fixpoint surrogatePairs (s : t) : nat :=
  match s with
  | [] => O
  | a :: r =>
      match r with
      | [] => O
      | b :: s' =>
          if isHigh a && isLow b then S (surrogatePairs s') else surrogatePairs r
      end
  end.

(** [str.match(/(\uFE0F|\uFE0E)/g)]: the variation selectors. *)
Fixpoint selectors (s : t) : nat :=
  match s with
  | [] => O
  | c :: s' => if ((c =? 65038) || (c =? 65039))%N then S (selectors s') else selectors s'
  end.

(** The length validator.js [isLength] compares with its bounds: a
    surrogate pair counts once and a variation selector not at all. *)
Definition chars (s : t) : nat := units s - selectors s - surrogatePairs s.

End Text.

Coercion Text.of_string : string >-> Text.t.

(** A string written where a text is expected is read as that text. *)
#[local] Arguments Some {A} & a.
#[local] Arguments cons {A} & a l.

(** ** Data model *)

(** A BSON ObjectId is a 12-byte value. *)
Definition ObjectId := N.

(** A document of the [Blog] model (models/Blog.js, [blogSchema]).
    Dates are milliseconds since the epoch. *)
Record Blog := mkBlog {
  _id : ObjectId;
  title : Text.t;
  content : Text.t;
  author : Text.t;
  tags : list Text.t;
  createdAt : Z;
  updatedAt : Z
}.

(** An item of an array sent as [tags]: a text, or a value that cannot be
    cast to a text (an object, an array). *)
Inductive TagItem :=
| ItemText (s : Text.t)
| ItemObject.

(** What a client may send as [tags]: an array of texts; a text; or an array
    with an item that is not a text, given by the texts before the first such
    item and the items after it. *)
Inductive TagsInput :=
| TagsArray (l : list Text.t)
| TagsText (s : Text.t)
| TagsMixed (before : list Text.t) (after : list TagItem).

Module Req.

(** [req.body] as received: a missing key is [None] ([undefined]). *)
Record body := mkBody {
  title : option Text.t;
  content : option Text.t;
  author : option Text.t;
  tags : option TagsInput
}.

(** [req.body] after the validation chains ran: the [trim] sanitizer of a
    chain stores a text under its key. *)
Record sanitized := mkSanitized {
  s_title : Text.t;
  s_content : Text.t;
  s_author : Text.t;
  s_tags : option TagsInput
}.

End Req.

(** One entry of [validationResult(req).array()], and of a Mongoose
    validation error. *)
Record FieldError := mkFieldError {
  path : string;
  msg : string
}.

(** ** express-validator: [validateBlog] *)

Module Validator.

(** Validators and sanitizers see the field as a string; [undefined]
    becomes the empty string. *)
Definition toString (v : option Text.t) : Text.t :=
  match v with Some s => s | None => [] end.

Definition notEmpty (s : Text.t) : bool := negb (Text.isEmpty s).

(** [isLength({ max })] compares the length validator.js counts, not the
    number of code units. *)
Definition isLength_max (max : nat) (s : Text.t) : bool :=
  (Text.chars s <=? max)%nat.

Definition isArray (v : TagsInput) : bool :=
  match v with
  | TagsArray _ => true
  | TagsText _ => false
  | TagsMixed _ _ => true
  end.

(** A validator followed by [.withMessage(m)]: an error for [field] with
    message [m] when the validator fails.  A chain runs every validator
    (there is no [.bail()]). *)
Definition check (field : string) (ok : bool) (m : string) : list FieldError :=
  if ok then [] else [mkFieldError field m].

(** [body(field).trim().notEmpty().withMessage(m1).isLength({max}).withMessage(m2)] *)
Definition bounded_text (field : string) (m1 : string) (max : nat) (m2 : string)
    (v : option Text.t) : Text.t * list FieldError :=
  let s := Text.trim (toString v) in
  (s, check field (notEmpty s) m1 ++ check field (isLength_max max s) m2).

(** [body(field).trim().notEmpty().withMessage(m1)] *)
Definition required_text (field : string) (m1 : string)
    (v : option Text.t) : Text.t * list FieldError :=
  let s := Text.trim (toString v) in
  (s, check field (notEmpty s) m1).

(** [body(field).optional().isArray().withMessage(m)]: an [undefined] field
    is skipped. *)
Definition optional_array (field : string) (m : string)
    (v : option TagsInput) : list FieldError :=
  match v with
  | None => []
  | Some t => check field (isArray t) m
  end.

End Validator.

(** The four chains run in order as middleware; each appends its errors to
    the request and its sanitizers rewrite [req.body]. *)
Definition validateBlog (b : Req.body) : Req.sanitized * list FieldError :=
  let (t, e1) := Validator.bounded_text "title" "Title is required"
                   100 "Title cannot exceed 100 characters" (Req.title b) in
  let (c, e2) := Validator.required_text "content" "Content is required"
                   (Req.content b) in
  let (a, e3) := Validator.bounded_text "author" "Author is required"
                   50 "Author name cannot exceed 50 characters" (Req.author b) in
  let e4 := Validator.optional_array "tags" "Tags must be an array" (Req.tags b) in
  (Req.mkSanitized t c a (Req.tags b), e1 ++ e2 ++ e3 ++ e4).

(** [validationResult(req)] *)
Definition validationResult (b : Req.body) : list FieldError := snd (validateBlog b).

(** ** The world the handlers run in *)

(** A call the service makes on the storage layer. *)
Inductive StorageOp :=
| OpFind
| OpFindOne (i : ObjectId)
| OpInsertOne (d : Blog)
| OpFindOneAndUpdate (i : ObjectId)
| OpFindOneAndDelete (i : ObjectId).

Record World := mkWorld {
  docs : list Blog;          (* the collection, in natural order *)
  reachable : bool;          (* whether the storage layer answers *)
  ticks : nat;               (* calls of Date.now() so far *)
  issued : nat;              (* ObjectIds generated so far *)
  trace : list StorageOp     (* storage calls so far, latest first *)
}.

(** The runtime outside the repository. *)
Record Runtime := mkRuntime {
  clock : nat -> Z;                          (* k-th reading of Date.now() *)
  newObjectId : nat -> ObjectId;             (* k-th generated ObjectId *)
  castObjectId : string -> option ObjectId;  (* string to ObjectId, if well-formed *)
  showObjectId : ObjectId -> string          (* ObjectId as it appears in JSON *)
}.

(** Errors a Mongoose call rejects with. *)
Inductive Error :=
| CastError (at_path : string) (value : string)
| ValidationError (errors : list FieldError)
| MongoNetworkError
| MongoServerError (code : Z).

Definition name (e : Error) : string :=
  match e with
  | CastError _ _ => "CastError"
  | ValidationError _ => "ValidationError"
  | MongoNetworkError => "MongoNetworkError"
  | MongoServerError _ => "MongoServerError"
  end.

(** An awaited computation: it returns or throws, and changes the world. *)
Inductive Outcome (A : Type) :=
| Returned (a : A)
| Thrown (e : Error).
Arguments Returned {A} a.
Arguments Thrown {A} e.

Definition Async (A : Type) := World -> Outcome A * World.

Definition ret {A} (a : A) : Async A := fun w => (Returned a, w).

Definition throw {A} (e : Error) : Async A := fun w => (Thrown e, w).

Definition bind {A B} (c : Async A) (k : A -> Async B) : Async B :=
  fun w =>
    match c w with
    | (Returned a, w') => k a w'
    | (Thrown e, w') => (Thrown e, w')
    end.

(** [try { c } catch (error) { h error }] where both blocks end in a
    response. *)
Definition try_catch {A} (c : Async A) (h : Error -> A) : World -> A * World :=
  fun w =>
    match c w with
    | (Returned a, w') => (a, w')
    | (Thrown e, w') => (h e, w')
    end.

Declare Scope async_scope.
Delimit Scope async_scope with async.
Notation "x <- c ;; k" := (bind c (fun x => k))
  (at level 61, c at next level, right associativity) : async_scope.
Notation "c ;;; k" := (bind c (fun _ => k))
  (at level 61, right associativity) : async_scope.
Local Open Scope async_scope.

(** ** Mongoose: the [Blog] model (models/Blog.js) *)

(** Options of a [String] path of a schema. *)
Record StringPath := mkStringPath {
  required : option string;          (* required: [true, message] *)
  trim : bool;                       (* trim: true *)
  maxlength : option (nat * string)  (* maxlength: [n, message] *)
}.

Record Schema := mkSchema {
  title_path : StringPath;
  content_path : StringPath;
  author_path : StringPath;
  tags_item : StringPath             (* tags: [ item ] *)
}.

Definition blogSchema : Schema := {|
  title_path := {| required := Some "Title is required";
                   trim := true;
                   maxlength := Some (100%nat, "Title cannot exceed 100 characters") |};
  content_path := {| required := Some "Content is required";
                     trim := true;
                     maxlength := None |};
  author_path := {| required := Some "Author is required";
                    trim := true;
                    maxlength := Some (50%nat, "Author name cannot exceed 50 characters") |};
  tags_item := {| required := None; trim := true; maxlength := None |}
|}.

(** Setters of a path run when a value is assigned or cast. *)
Definition applySetters (p : StringPath) (s : Text.t) : Text.t :=
  if trim p then Text.trim s else s.

(** Validators of a path; [maxlength] compares [value.length], the number
    of code units. *)
Definition doValidate (p : StringPath) (field : string) (s : Text.t) : list FieldError :=
  match required p with
  | Some m => if Text.isEmpty s then [mkFieldError field m] else []
  | None => []
  end ++
  match maxlength p with
  | Some (n, m) => if (Text.units s <=? n)%nat then [] else [mkFieldError field m]
  | None => []
  end.

(** Cast of a value to the array path [tags]: a value that is not an array
    is wrapped into one; every item goes through the item's setters; an
    item that cannot be cast to a text makes the cast fail. *)
Definition castTags (s : Schema) (v : TagsInput) : option (list Text.t) :=
  match v with
  | TagsArray l => Some (map (applySetters (tags_item s)) l)
  | TagsText t => Some [applySetters (tags_item s) t]
  | TagsMixed _ _ => None
  end.

Definition validatePaths (s : Schema) (t c a : Text.t) : list FieldError :=
  doValidate (title_path s) "title" t ++
  doValidate (content_path s) "content" c ++
  doValidate (author_path s) "author" a.

Definition eq_id (i : ObjectId) (d : Blog) : bool := N.eqb (_id d) i.

(** Replace the first document whose [_id] is [i]. *)
Fixpoint replaceOne (i : ObjectId) (f : Blog -> Blog) (l : list Blog) : list Blog :=
  match l with
  | [] => []
  | d :: l' => if eq_id i d then f d :: l' else d :: replaceOne i f l'
  end.

(** Remove the first document whose [_id] is [i]. *)
Fixpoint removeOne (i : ObjectId) (l : list Blog) : list Blog :=
  match l with
  | [] => []
  | d :: l' => if eq_id i d then l' else d :: removeOne i l'
  end.

(** [sort({ createdAt: -1 })]: newest first; documents of equal date keep
    their natural order. *)
Fixpoint insertDesc (d : Blog) (l : list Blog) : list Blog :=
  match l with
  | [] => [d]
  | x :: l' =>
      if (createdAt x <=? createdAt d)%Z then d :: x :: l' else x :: insertDesc d l'
  end.

Fixpoint sortDesc (l : list Blog) : list Blog :=
  match l with
  | [] => []
  | d :: l' => insertDesc d (sortDesc l')
  end.

Definition set_updatedAt (now : Z) (d : Blog) : Blog :=
  mkBlog (_id d) (title d) (content d) (author d) (tags d) (createdAt d) now.

Section Service.

Variable R : Runtime.

(** [Date.now()] *)
Definition Date_now : Async Z :=
  fun w => (Returned (clock R (ticks w)),
            mkWorld (docs w) (reachable w) (S (ticks w)) (issued w) (trace w)).

(** [new ObjectId()] *)
Definition ObjectId_new : Async ObjectId :=
  fun w => (Returned (newObjectId R (issued w)),
            mkWorld (docs w) (reachable w) (ticks w) (S (issued w)) (trace w)).

(** A call reaches the storage layer, which answers or not. *)
Definition storage (op : StorageOp) : Async unit :=
  fun w =>
    let w' := mkWorld (docs w) (reachable w) (ticks w) (issued w) (op :: trace w) in
    if reachable w then (Returned tt, w') else (Thrown MongoNetworkError, w').

Definition collection : Async (list Blog) :=
  fun w => (Returned (docs w), w).

Definition store (l : list Blog) : Async unit :=
  fun w => (Returned tt, mkWorld l (reachable w) (ticks w) (issued w) (trace w)).

(** Cast of the [_id] condition of a query. *)
Definition castId (id : string) : Async ObjectId :=
  match castObjectId R id with
  | Some i => ret i
  | None => throw (CastError "_id" id)
  end.

(** [new Blog({ title, content, author, tags })]: the [_id] is generated,
    the setters run, and the defaults [Date.now] of [createdAt] and
    [updatedAt] are taken, one call each.  The constructor does not throw:
    a value that cannot be cast leaves its path at the default (no tags) and
    an error on the document, which validation reports. *)
Definition Blog_new (t c a : Text.t) (tg : TagsInput)
  : Async (Blog * list FieldError) :=
  i <- ObjectId_new ;;
  created <- Date_now ;;
  updated <- Date_now ;;
  let (tags, errs) :=
    match castTags blogSchema tg with
    | Some l => (l, [])
    | None => ([], [mkFieldError "tags" "Cast to [string] failed"])
    end in
  ret (mkBlog i
         (applySetters (title_path blogSchema) t)
         (applySetters (content_path blogSchema) c)
         (applySetters (author_path blogSchema) a)
         tags created updated,
       errs).

(** [blog.save()] of a new document: validation (the cast errors of the
    document and the validators of its paths), then the [pre("save")] hook
    of the schema ([this.updatedAt = Date.now()]), then the insert.  The
    [_id] index rejects a duplicate key. *)
Definition save (document : Blog * list FieldError) : Async Blog :=
  let (blog, castErrors) := document in
  match castErrors ++
        validatePaths blogSchema (title blog) (content blog) (author blog) with
  | [] => ret tt
  | errs => throw (ValidationError errs)
  end ;;;
  now <- Date_now ;;
  let blog := set_updatedAt now blog in
  storage (OpInsertOne blog) ;;;
  l <- collection ;;
  if existsb (eq_id (_id blog)) l then throw (MongoServerError 11000)
  else store (l ++ [blog]) ;;; ret blog.

(** [Blog.find().sort({ createdAt: -1 })] *)
Definition find_sort_createdAt_desc : Async (list Blog) :=
  storage OpFind ;;;
  l <- collection ;;
  ret (sortDesc l).

(** [Blog.findById(id)] *)
Definition findById (id : string) : Async (option Blog) :=
  i <- castId id ;;
  storage (OpFindOne i) ;;;
  l <- collection ;;
  ret (find (eq_id i) l).

(** [Blog.findByIdAndUpdate(id, { title, content, author, tags },
    { new: true, runValidators: true })]: the [pre("findOneAndUpdate")] hook
    of the schema adds [updatedAt: Date.now()] to the update, the condition
    and the update are cast (a value that cannot be cast throws a
    CastError), the validators of the updated paths run, and the first
    matching document is modified; the modified document is returned. *)
Definition findByIdAndUpdate (id : string) (t c a : Text.t) (tg : TagsInput)
  : Async (option Blog) :=
  now <- Date_now ;;
  i <- castId id ;;
  let t' := applySetters (title_path blogSchema) t in
  let c' := applySetters (content_path blogSchema) c in
  let a' := applySetters (author_path blogSchema) a in
  tg' <- match castTags blogSchema tg with
         | Some l => ret l
         | None => throw (CastError "tags" "[object Object]")
         end ;;
  match validatePaths blogSchema t' c' a' with
  | [] => ret tt
  | errs => throw (ValidationError errs)
  end ;;;
  storage (OpFindOneAndUpdate i) ;;;
  l <- collection ;;
  let upd := fun d => mkBlog (_id d) t' c' a' tg' (createdAt d) now in
  store (replaceOne i upd l) ;;;
  ret (option_map upd (find (eq_id i) l)).

(** [Blog.findByIdAndDelete(id)] *)
Definition findByIdAndDelete (id : string) : Async (option Blog) :=
  i <- castId id ;;
  storage (OpFindOneAndDelete i) ;;;
  l <- collection ;;
  store (removeOne i l) ;;;
  ret (find (eq_id i) l).

(** ** The router (routes/blogRoutes.js) *)

(** A value put in a response object. *)
Inductive jsvalue :=
| VBool (b : bool)
| VNum (n : Z)
| VStr (s : string)
| VDoc (d : Blog)
| VDocs (l : list Blog)
| VErrors (l : list FieldError).

(** [res.status(code).json(obj)]; [res.json(obj)] answers 200. *)
Record Response := mkResponse {
  status : Z;
  json : list (string * jsvalue)
}.

Definition res_status_json (code : Z) (obj : list (string * jsvalue)) : Response :=
  mkResponse code obj.

Definition res_json (obj : list (string * jsvalue)) : Response :=
  mkResponse 200 obj.

(** [tags || []]: an absent or empty-text [tags] is falsy. *)
Definition or_empty (tg : option TagsInput) : TagsInput :=
  match tg with
  | None => TagsArray []
  | Some (TagsText []) => TagsArray []
  | Some v => v
  end.

Definition isCastError (error : Error) : bool := String.eqb (name error) "CastError".

(** GET /api/blogs *)
Definition get_blogs : World -> Response * World :=
  try_catch
    (blogs <- find_sort_createdAt_desc ;;
     ret (res_json [("success", VBool true);
                    ("count", VNum (Z.of_nat (List.length blogs)));
                    ("data", VDocs blogs)]))
    (fun error =>
       res_status_json 500 [("success", VBool false);
                            ("message", VStr "Error fetching blogs")]).

(** GET /api/blogs/:id *)
Definition get_blog (id : string) : World -> Response * World :=
  try_catch
    (blog <- findById id ;;
     match blog with
     | None =>
         ret (res_status_json 404 [("success", VBool false);
                                   ("message", VStr "Blog not found")])
     | Some blog =>
         ret (res_json [("success", VBool true); ("data", VDoc blog)])
     end)
    (fun error =>
       if isCastError error then
         res_status_json 400 [("success", VBool false);
                              ("message", VStr "Invalid blog ID")]
       else
         res_status_json 500 [("success", VBool false);
                              ("message", VStr "Error fetching blog")]).

(** POST /api/blogs; [validateBlog] runs before the handler. *)
Definition post_blog (b : Req.body) : World -> Response * World :=
  let (body, errors) := validateBlog b in
  try_catch
    (match errors with
     | _ :: _ =>
         ret (res_status_json 400 [("success", VBool false);
                                   ("message", VStr "Validation failed");
                                   ("errors", VErrors errors)])
     | [] =>
         blog <- Blog_new (Req.s_title body) (Req.s_content body) (Req.s_author body)
                          (or_empty (Req.s_tags body)) ;;
         savedBlog <- save blog ;;
         ret (res_status_json 201 [("success", VBool true);
                                   ("message", VStr "Blog created successfully");
                                   ("data", VDoc savedBlog)])
     end)
    (fun error =>
       res_status_json 500 [("success", VBool false);
                            ("message", VStr "Error creating blog")]).

(** PUT /api/blogs/:id; [validateBlog] runs before the handler. *)
Definition put_blog (id : string) (b : Req.body) : World -> Response * World :=
  let (body, errors) := validateBlog b in
  try_catch
    (match errors with
     | _ :: _ =>
         ret (res_status_json 400 [("success", VBool false);
                                   ("message", VStr "Validation failed");
                                   ("errors", VErrors errors)])
     | [] =>
         blog <- findByIdAndUpdate id (Req.s_title body) (Req.s_content body)
                                   (Req.s_author body) (or_empty (Req.s_tags body)) ;;
         match blog with
         | None =>
             ret (res_status_json 404 [("success", VBool false);
                                       ("message", VStr "Blog not found")])
         | Some blog =>
             ret (res_json [("success", VBool true);
                            ("message", VStr "Blog updated successfully");
                            ("data", VDoc blog)])
         end
     end)
    (fun error =>
       if isCastError error then
         res_status_json 400 [("success", VBool false);
                              ("message", VStr "Invalid blog ID")]
       else
         res_status_json 500 [("success", VBool false);
                              ("message", VStr "Error updating blog")]).

(** DELETE /api/blogs/:id *)
Definition delete_blog (id : string) : World -> Response * World :=
  try_catch
    (blog <- findByIdAndDelete id ;;
     match blog with
     | None =>
         ret (res_status_json 404 [("success", VBool false);
                                   ("message", VStr "Blog not found")])
     | Some _ =>
         ret (res_json [("success", VBool true);
                        ("message", VStr "Blog deleted successfully")])
     end)
    (fun error =>
       if isCastError error then
         res_status_json 400 [("success", VBool false);
                              ("message", VStr "Invalid blog ID")]
       else
         res_status_json 500 [("success", VBool false);
                              ("message", VStr "Error deleting blog")]).

(** The five routes of the router. *)
Inductive Request :=
| GET_blogs
| GET_blog (id : string)
| POST_blog (b : Req.body)
| PUT_blog (id : string) (b : Req.body)
| DELETE_blog (id : string).

Definition router (rq : Request) : World -> Response * World :=
  match rq with
  | GET_blogs => get_blogs
  | GET_blog id => get_blog id
  | POST_blog b => post_blog b
  | PUT_blog id b => put_blog id b
  | DELETE_blog id => delete_blog id
  end.

End Service.

(** ** Vocabulary of the properties *)

(** The value of a key of a response object. *)
Fixpoint field (key : string) (obj : list (string * jsvalue)) : option jsvalue :=
  match obj with
  | [] => None
  | (k, v) :: obj' => if String.eqb k key then Some v else field key obj'
  end.

Definition is2xx (code : Z) : bool := ((200 <=? code) && (code <? 300))%Z.

(** The three client-error responses of the router. *)
Definition validation_failed (errors : list FieldError) : Response :=
  mkResponse 400 [("success", VBool false);
                  ("message", VStr "Validation failed");
                  ("errors", VErrors errors)].

Definition invalid_id : Response :=
  mkResponse 400 [("success", VBool false); ("message", VStr "Invalid blog ID")].

Definition not_found : Response :=
  mkResponse 404 [("success", VBool false); ("message", VStr "Blog not found")].

(** The server-error response of a handler. *)
Definition server_error (m : string) : Response :=
  mkResponse 500 [("success", VBool false); ("message", VStr m)].


(** An identifier is well-formed when the storage layer can cast it. *)
Definition wellFormed (R : Runtime) (id : string) : bool :=
  match castObjectId R id with Some _ => true | None => false end.

(** The document with a given identifier, if the collection has one. *)
Definition lookup (R : Runtime) (id : string) (w : World) : option Blog :=
  match castObjectId R id with
  | Some i => find (eq_id i) (docs w)
  | None => None
  end.

(** The generator never issues an ObjectId twice. *)
Definition fresh_ids (R : Runtime) : Prop :=
  forall j k, newObjectId R j = newObjectId R k -> j = k.

(** The clock never runs backwards. *)
Definition monotone (R : Runtime) : Prop :=
  forall j k, (j <= k)%nat -> (clock R j <= clock R k)%Z.

(** A world the service can have produced: every document carries an issued
    identifier of its own, and dates read from the clock, the creation date
    no later than the date of the last update. *)
Record Consistent (R : Runtime) (w : World) : Prop := mkConsistent {
  ids_issued : forall d, In d (docs w) ->
    exists k, (k < issued w)%nat /\ _id d = newObjectId R k;
  ids_unique : NoDup (map _id (docs w));
  dates_read : forall d, In d (docs w) ->
    exists i j, (i <= j < ticks w)%nat /\
                createdAt d = clock R i /\ updatedAt d = clock R j
}.

(** [createdAt] newest first. *)
Definition newer_or_same (a b : Blog) : Prop := (createdAt b <= createdAt a)%Z.

(** The document POST /api/blogs builds from a body in a world. *)
Definition created (R : Runtime) (b : Req.body) (w : World) : Blog :=
  mkBlog (newObjectId R (issued w))
         (Text.trim (Validator.toString (Req.title b)))
         (Text.trim (Validator.toString (Req.content b)))
         (Text.trim (Validator.toString (Req.author b)))
         (match Req.tags b with
          | Some (TagsArray l) => map Text.trim l
          | _ => []
          end)
         (clock R (ticks w))
         (clock R (2 + ticks w)).

(** The document PUT /api/blogs/:id turns [old] into. *)
Definition updated (R : Runtime) (b : Req.body) (w : World) (old : Blog) : Blog :=
  mkBlog (_id old)
         (Text.trim (Validator.toString (Req.title b)))
         (Text.trim (Validator.toString (Req.content b)))
         (Text.trim (Validator.toString (Req.author b)))
         (match Req.tags b with
          | Some (TagsArray l) => map Text.trim l
          | _ => []
          end)
         (createdAt old)
         (clock R (ticks w)).

(** ** Runs of the service *)

(** What happens to the service: it serves a request, or the storage layer
    goes away or comes back. *)
Inductive Event :=
| Serves (rq : Request)
| Outage
| Recovery.

Definition step (R : Runtime) (e : Event) (w : World) : World :=
  match e with
  | Serves rq => snd (router R rq w)
  | Outage => mkWorld (docs w) false (ticks w) (issued w) (trace w)
  | Recovery => mkWorld (docs w) true (ticks w) (issued w) (trace w)
  end.

Definition run (R : Runtime) (es : list Event) (w : World) : World :=
  fold_left (fun w e => step R e w) es w.

(** The service as started: an empty collection, nothing read or issued. *)
Definition started (up : bool) : World := mkWorld [] up 0 0 [].

(** The constraints of [blogSchema] and of the sanitizers on a document. *)
Definition conforms (d : Blog) : bool :=
  negb (Text.isEmpty (title d)) && (Text.units (title d) <=? 100)%nat &&
  negb (Text.padded (title d)) &&
  negb (Text.isEmpty (content d)) && negb (Text.padded (content d)) &&
  negb (Text.isEmpty (author d)) && (Text.units (author d) <=? 50)%nat &&
  negb (Text.padded (author d)) &&
  forallb (fun t => negb (Text.padded t)) (tags d).

(** The body a client builds from the fields of a document. *)
Definition body_of (d : Blog) : Req.body :=
  Req.mkBody (Some (title d)) (Some (content d)) (Some (author d))
             (Some (TagsArray (tags d))).

(** The clock shows a later time at every reading. *)
Definition advancing (R : Runtime) : Prop :=
  forall j k, (j < k)%nat -> (clock R j < clock R k)%Z.

(** The statuses each route can answer. *)
Definition statuses (rq : Request) : list Z :=
  match rq with
  | GET_blogs => [200; 500]
  | GET_blog _ => [200; 400; 404; 500]
  | POST_blog _ => [201; 400; 500]
  | PUT_blog _ _ => [200; 400; 404; 500]
  | DELETE_blog _ => [200; 400; 404; 500]
  end%Z.

(** Whether the body of a request passes the validation chains. *)
Definition passes (b : Req.body) : bool :=
  match validationResult b with [] => true | _ :: _ => false end.

(** Whether the tags of a body, as the handlers pass them on, can be cast
    to the array of texts of the schema. *)
Definition castable (b : Req.body) : bool :=
  match castTags blogSchema (or_empty (Req.tags b)) with
  | Some _ => true
  | None => false
  end.

(** Whether the validators of the schema accept the sanitized title,
    content and author of a body. *)
Definition schema_valid (b : Req.body) : bool :=
  let body := fst (validateBlog b) in
  match validatePaths blogSchema
          (applySetters (title_path blogSchema) (Req.s_title body))
          (applySetters (content_path blogSchema) (Req.s_content body))
          (applySetters (author_path blogSchema) (Req.s_author body)) with
  | [] => true
  | _ :: _ => false
  end.

(** Whether the schema takes the sanitized body: its tags can be cast and
    its validators accept the texts. *)
Definition accepted (b : Req.body) : bool := castable b && schema_valid b.

(** A body with title and author of code units below U+0100 and with no
    item among its tags that is not a text. *)
Definition plain (b : Req.body) : bool :=
  forallb (fun c => (c <? 256)%N) (Validator.toString (Req.title b)) &&
  forallb (fun c => (c <? 256)%N) (Validator.toString (Req.author b)) &&
  match Req.tags b with
  | Some (TagsMixed _ _) => false
  | _ => true
  end.

(** Whether a request gets as far as a call on the storage layer: its body
    passes validation, its identifier is well-formed and the schema takes
    the body. *)
Definition reaches_storage (R : Runtime) (rq : Request) : bool :=
  match rq with
  | GET_blogs => true
  | GET_blog id => wellFormed R id
  | POST_blog b => passes b && accepted b
  | PUT_blog id b => passes b && wellFormed R id && accepted b
  | DELETE_blog id => wellFormed R id
  end.

(** Whether a request is stopped by the schema after its body passed the
    validation chains: a creation the schema does not take, an update (of a
    well-formed identifier, with tags that can be cast) whose texts the
    validators of the schema reject. *)
Definition rejected_by_schema (R : Runtime) (rq : Request) : bool :=
  match rq with
  | POST_blog b => passes b && negb (accepted b)
  | PUT_blog id b => passes b && wellFormed R id && castable b && negb (schema_valid b)
  | _ => false
  end.

(** A body none of whose texts carries surrounding whitespace. *)
Definition unpadded (b : Req.body) : bool :=
  negb (Text.padded (Validator.toString (Req.title b))) &&
  negb (Text.padded (Validator.toString (Req.content b))) &&
  negb (Text.padded (Validator.toString (Req.author b))) &&
  match Req.tags b with
  | Some (TagsArray l) => forallb (fun t => negb (Text.padded t)) l
  | _ => true
  end.


(** ** A sample runtime

    ObjectIds written as 24 hexadecimal digits, a clock whose readings are
    given by a function, and ObjectIds generated by counting. *)

Module Sample.

Definition hexDigit (c : ascii) : option N :=
  let n := N_of_ascii c in
  if ((48 <=? n) && (n <=? 57))%N then Some (n - 48)%N
  else if ((97 <=? n) && (n <=? 102))%N then Some (n - 87)%N
  else if ((65 <=? n) && (n <=? 70))%N then Some (n - 55)%N
  else None.

Fixpoint parseHex (s : string) (acc : N) : option N :=
  match s with
  | EmptyString => Some acc
  | String c s' =>
      match hexDigit c with
      | Some d => parseHex s' (16 * acc + d)%N
      | None => None
      end
  end.

Definition castHex (s : string) : option ObjectId :=
  if (String.length s =? 24)%nat then parseHex s 0%N else None.

Definition hexChar (d : N) : ascii :=
  if (d <? 10)%N then ascii_of_N (48 + d) else ascii_of_N (87 + d).

Fixpoint showHexDigits (k : nat) (n : N) (acc : string) : string :=
  match k with
  | O => acc
  | S k' => showHexDigits k' (n / 16)%N (String (hexChar (n mod 16)%N) acc)
  end.

Definition showHex (i : ObjectId) : string := showHexDigits 24 i EmptyString.

(** Readings one millisecond apart. *)
Definition ticking : nat -> Z := fun k => (1700000000000 + Z.of_nat k)%Z.

(** Readings that all fall in the same millisecond. *)
Definition frozen : nat -> Z := fun _ => 1700000000000%Z.

Definition counting : nat -> ObjectId := fun k => (1000 + N.of_nat k)%N.

Definition runtime (clk : nat -> Z) : Runtime :=
  mkRuntime clk counting castHex showHex.

Definition empty : World := mkWorld [] true 0 0 [].

Definition unreachable : World := mkWorld [] false 0 0 [].

Definition hello : Req.body :=
  Req.mkBody (Some "  Hello  ") (Some " first post ") (Some "ann ")
             (Some (TagsArray [" news "; "rocq"])).

Definition untagged : Req.body :=
  Req.mkBody (Some "Hello") (Some "first post") (Some "ann") None.

Definition blank : Req.body :=
  Req.mkBody (Some "   ") None (Some "") (Some (TagsText "news")).

(** The world after one creation in the empty world. *)
Definition seeded (clk : nat -> Z) : World :=
  snd (post_blog (runtime clk) untagged empty).

(** A runtime whose clock advances, one whose clock stands still, and the
    seeded world of each. *)
Definition live : Runtime := runtime ticking.

Definition still : Runtime := runtime frozen.

Definition live_seeded : World := seeded ticking.

Definition still_seeded : World := seeded frozen.

(** The identifier of the first generated ObjectId, and a well-formed
    identifier that is never generated. *)
Definition first_id : string := showHex (counting 0).

Definition other_id : string := showHex 7%N.

(** A text of [n] letters. *)
Definition filler (n : nat) : Text.t := repeat 97%N n.

Definition overlong : Req.body :=
  Req.mkBody (Some (filler 101)) (Some "text") (Some "ann") None.

(** A text of [n] emoji (U+1F600), two code units each. *)
Fixpoint emoji (n : nat) : Text.t :=
  match n with
  | O => []
  | S k => 55357%N :: 56832%N :: emoji k
  end.

(** A body whose title is 60 emoji: 60 characters for the chains, 120 code
    units for the schema. *)
Definition smileys : Req.body :=
  Req.mkBody (Some (emoji 60)) (Some "text") (Some "ann") None.

(** A body whose tags are an array holding an object. *)
Definition tagged_object : Req.body :=
  Req.mkBody (Some "Hello") (Some "text") (Some "ann")
             (Some (TagsMixed ["news"] [])).

(** A body whose texts carry no surrounding whitespace. *)
Definition neat : Req.body :=
  Req.mkBody (Some "Hello") (Some "first post") (Some "ann")
             (Some (TagsArray ["news"; "rocq"])).

(** Three documents stored oldest, newest, middle. *)
Definition shelf : World :=
  mkWorld [mkBlog 1%N "a" "x" "ann" [] 10%Z 12%Z;
           mkBlog 2%N "b" "y" "bob" ["t"] 30%Z 30%Z;
           mkBlog 3%N "c" "z" "cy" [] 20%Z 25%Z]
          true 0 0 [].

End Sample.

(** * Properties *)

(** ** Trimming *)

Section TextFacts.

Import Text.

Lemma ltrim_head (s : Text.t) :
  match ltrim s with
  | [] => True
  | c :: _ => isSpace c = false
  end.
Proof.
  induction s as [|c s IH]; simpl; [exact I|].
  destruct (isSpace c) eqn:Hc; [exact IH | exact Hc].
Qed.

Lemma rtrim_keeps_head (c : N) (s : Text.t) :
  isSpace c = false -> rtrim (c :: s) = c :: rtrim s.
Proof.
  intros Hc. simpl. destruct (rtrim s); [rewrite Hc|]; reflexivity.
Qed.

Lemma rtrim_cons2 (c a : N) (r : Text.t) :
  rtrim (c :: a :: r) =
  match rtrim (a :: r) with
  | [] => if isSpace c then [] else [c]
  | x :: y => c :: x :: y
  end.
Proof. reflexivity. Qed.

Lemma rtrim_idempotent (s : Text.t) : rtrim (rtrim s) = rtrim s.
Proof.
  induction s as [|c s IH]; [reflexivity|].
  simpl. destruct (rtrim s) as [|a r] eqn:E.
  - destruct (isSpace c) eqn:Hc; simpl; [|rewrite Hc]; reflexivity.
  - rewrite rtrim_cons2, IH. reflexivity.
Qed.

Lemma ltrim_of_trim (s : Text.t) : ltrim (trim s) = trim s.
Proof.
  unfold trim. pose proof (ltrim_head s) as H.
  destruct (ltrim s) as [|c t]; [reflexivity|].
  rewrite (rtrim_keeps_head c t H). simpl. rewrite H. reflexivity.
Qed.

Lemma trim_idempotent (s : Text.t) : trim (trim s) = trim s.
Proof.
  unfold trim at 1. rewrite ltrim_of_trim. unfold trim. apply rtrim_idempotent.
Qed.

Lemma rtrim_last (s : Text.t) :
  match last (rtrim s) with
  | Some c => isSpace c = false
  | None => True
  end.
Proof.
  induction s as [|c s IH]; simpl; [exact I|].
  destruct (rtrim s) as [|a r] eqn:E.
  - destruct (isSpace c) eqn:Hc; simpl; [exact I | exact Hc].
  - exact IH.
Qed.

Lemma trim_first (s : Text.t) :
  match first (trim s) with
  | Some c => isSpace c = false
  | None => True
  end.
Proof.
  rewrite <- ltrim_of_trim. pose proof (ltrim_head (trim s)) as H.
  destruct (ltrim (trim s)); simpl; [exact I | exact H].
Qed.

(** A trimmed text carries no surrounding whitespace. *)
Lemma trim_not_padded (s : Text.t) : padded (trim s) = false.
Proof.
  unfold padded. pose proof (trim_first s) as Hf.
  pose proof (rtrim_last (ltrim s)) as Hl. fold (trim s) in Hl.
  destruct (first (trim s)); [|reflexivity].
  destruct (last (trim s)); [|reflexivity].
  rewrite Hf, Hl. reflexivity.
Qed.

Lemma padded_not_trimmed (s : Text.t) : padded s = true -> trim s <> s.
Proof.
  intros Hp He. rewrite <- He, trim_not_padded in Hp. discriminate.
Qed.

(** The length the chains compare never exceeds the number of code units. *)
Lemma chars_le_units (s : Text.t) : (chars s <= units s)%nat.
Proof. unfold chars. lia. Qed.

End TextFacts.

(** ** Validation *)

Lemma validateBlog_eq (b : Req.body) :
  validateBlog b =
  (Req.mkSanitized (Text.trim (Validator.toString (Req.title b)))
                   (Text.trim (Validator.toString (Req.content b)))
                   (Text.trim (Validator.toString (Req.author b)))
                   (Req.tags b),
   validationResult b).
Proof. reflexivity. Qed.

Lemma check_nil (f : string) (ok : bool) (m : string) :
  Validator.check f ok m = [] -> ok = true.
Proof. destruct ok; [reflexivity | discriminate]. Qed.

(** What a request that passes the four chains looks like. *)
Lemma validation_passed (b : Req.body) :
  validationResult b = [] ->
  let t := Text.trim (Validator.toString (Req.title b)) in
  let c := Text.trim (Validator.toString (Req.content b)) in
  let a := Text.trim (Validator.toString (Req.author b)) in
  Text.isEmpty t = false /\ (Text.chars t <= 100)%nat /\
  Text.isEmpty c = false /\
  Text.isEmpty a = false /\ (Text.chars a <= 50)%nat /\
  (Req.tags b = None \/ (exists l, Req.tags b = Some (TagsArray l)) \/
   exists l r, Req.tags b = Some (TagsMixed l r)).
Proof.
  unfold validationResult, validateBlog, Validator.bounded_text,
    Validator.required_text, Validator.optional_array. simpl.
  intros H.
  repeat match goal with
  | X : _ ++ _ = [] |- _ => apply app_eq_nil in X; destruct X
  end.
  repeat match goal with
  | X : Validator.check _ _ _ = [] |- _ => apply check_nil in X
  end.
  unfold Validator.notEmpty, Validator.isLength_max in *.
  repeat match goal with
  | X : negb _ = true |- _ => apply negb_true_iff in X
  | X : (_ <=? _)%nat = true |- _ => apply Nat.leb_le in X
  end.
  repeat split; try assumption.
  destruct (Req.tags b) as [[l|s|l r]|];
    [right; left; eauto | | right; right; eauto | left; reflexivity].
  match goal with
  | X : Validator.check _ _ _ = [] |- _ => apply check_nil in X; discriminate
  end.
Qed.

(** The setters of the schema leave a sanitized text as it is. *)
Lemma setters_keep (s : Text.t) :
  applySetters (title_path blogSchema) (Text.trim s) = Text.trim s /\
  applySetters (content_path blogSchema) (Text.trim s) = Text.trim s /\
  applySetters (author_path blogSchema) (Text.trim s) = Text.trim s.
Proof.
  unfold applySetters. simpl. rewrite !trim_idempotent. auto.
Qed.

Lemma schema_valid_eq (b : Req.body) :
  schema_valid b =
  match validatePaths blogSchema
          (Text.trim (Validator.toString (Req.title b)))
          (Text.trim (Validator.toString (Req.content b)))
          (Text.trim (Validator.toString (Req.author b))) with
  | [] => true
  | _ :: _ => false
  end.
Proof.
  unfold schema_valid. rewrite validateBlog_eq. simpl.
  rewrite (proj1 (setters_keep _)), (proj1 (proj2 (setters_keep _))),
    (proj2 (proj2 (setters_keep _))). reflexivity.
Qed.

(** What the schema makes of a body it takes. *)
Lemma schema_accepts (b : Req.body) :
  accepted b = true ->
  validatePaths blogSchema
    (Text.trim (Validator.toString (Req.title b)))
    (Text.trim (Validator.toString (Req.content b)))
    (Text.trim (Validator.toString (Req.author b))) = [].
Proof.
  unfold accepted. intros H. apply andb_true_iff in H. destruct H as [_ H].
  rewrite schema_valid_eq in H.
  destruct (validatePaths _ _ _ _); [reflexivity | discriminate].
Qed.

Lemma tags_cast (b : Req.body) (l : list Text.t) :
  validationResult b = [] ->
  castTags blogSchema (or_empty (Req.tags b)) = Some l ->
  l = match Req.tags b with
      | Some (TagsArray l) => map Text.trim l
      | _ => []
      end.
Proof.
  intros H. apply validation_passed in H. cbv zeta in H.
  destruct H as (_ & _ & _ & _ & _ & [Hn | [[x Hl] | [x [r Hl]]]]).
  - rewrite Hn. simpl. intros E. inversion E. reflexivity.
  - rewrite Hl. simpl. intros E. inversion E. reflexivity.
  - rewrite Hl. discriminate.
Qed.

Lemma castable_cast (b : Req.body) :
  validationResult b = [] ->
  castable b = true ->
  castTags blogSchema (or_empty (Req.tags b)) =
  Some match Req.tags b with
       | Some (TagsArray l) => map Text.trim l
       | _ => []
       end.
Proof.
  intros Hv. unfold castable.
  destruct (castTags blogSchema (or_empty (Req.tags b))) as [l|] eqn:E;
    [|discriminate].
  intros _. rewrite (tags_cast b l Hv E). reflexivity.
Qed.

(** A text of code units below U+0100 has as many characters for the chains
    as it has code units. *)
Lemma plain_chars (s : Text.t) :
  forallb (fun c => (c <? 256)%N) s = true -> Text.chars s = Text.units s.
Proof.
  intros H.
  assert (Hs : Text.selectors s = O).
  { induction s as [|c s IH]; [reflexivity|]. simpl in *.
    apply andb_true_iff in H. destruct H as [Hc Hs]. apply N.ltb_lt in Hc.
    destruct (N.eqb_spec c 65038); [lia|]. destruct (N.eqb_spec c 65039); [lia|].
    simpl. apply IH, Hs. }
  assert (Hp : Text.surrogatePairs s = O).
  { clear Hs. induction s as [|a r IH]; [reflexivity|].
    simpl in H. apply andb_true_iff in H. destruct H as [Ha H].
    apply N.ltb_lt in Ha. destruct r as [|b s']; [reflexivity|].
    change (Text.surrogatePairs (a :: b :: s')) with
      (if Text.isHigh a && Text.isLow b then S (Text.surrogatePairs s')
       else Text.surrogatePairs (b :: s')).
    assert (Hh : Text.isHigh a = false).
    { unfold Text.isHigh. destruct (N.leb_spec 55296 a); [lia | reflexivity]. }
    rewrite Hh. exact (IH H). }
  unfold Text.chars. rewrite Hs, Hp. lia.
Qed.

Lemma plain_ltrim (s : Text.t) :
  forallb (fun c => (c <? 256)%N) s = true ->
  forallb (fun c => (c <? 256)%N) (Text.ltrim s) = true.
Proof.
  induction s as [|c s IH]; [reflexivity|]. intros H. simpl.
  destruct (Text.isSpace c); [|exact H].
  simpl in H. apply andb_true_iff in H. apply IH, H.
Qed.

Lemma plain_rtrim (s : Text.t) :
  forallb (fun c => (c <? 256)%N) s = true ->
  forallb (fun c => (c <? 256)%N) (Text.rtrim s) = true.
Proof.
  induction s as [|c s IH]; [reflexivity|]. intros H. simpl in H.
  apply andb_true_iff in H. destruct H as [Hc Hs]. specialize (IH Hs). simpl.
  destruct (Text.rtrim s) as [|a r].
  - destruct (Text.isSpace c); [reflexivity|]. simpl. rewrite Hc. reflexivity.
  - change (forallb (fun c => (c <? 256)%N) (c :: a :: r)) with
      ((c <? 256)%N && forallb (fun c => (c <? 256)%N) (a :: r)).
    rewrite Hc, IH. reflexivity.
Qed.

(** On a plain body the schema takes whatever the chains accepted. *)
Lemma plain_accepted (b : Req.body) :
  plain b = true -> validationResult b = [] -> accepted b = true.
Proof.
  unfold plain. intros Hp Hv.
  apply andb_true_iff in Hp. destruct Hp as [Hp Hg].
  apply andb_true_iff in Hp. destruct Hp as [Ht Ha].
  pose proof (validation_passed b Hv) as H. cbv zeta in H.
  destruct H as (H1 & H2 & H3 & H4 & H5 & H6).
  unfold accepted. apply andb_true_iff. split.
  - unfold castable. destruct (Req.tags b) as [[l|s|l r]|]; try reflexivity.
    + destruct H6 as [H6 | [[x H6] | [x [y H6]]]]; discriminate.
    + discriminate.
  - rewrite schema_valid_eq.
    assert (Et : Text.units (Text.trim (Validator.toString (Req.title b))) =
                 Text.chars (Text.trim (Validator.toString (Req.title b))))
      by (symmetry; apply plain_chars, plain_rtrim, plain_ltrim, Ht).
    assert (Ea : Text.units (Text.trim (Validator.toString (Req.author b))) =
                 Text.chars (Text.trim (Validator.toString (Req.author b))))
      by (symmetry; apply plain_chars, plain_rtrim, plain_ltrim, Ha).
    unfold validatePaths, doValidate.
    cbn [required maxlength title_path content_path author_path blogSchema].
    rewrite H1, H3, H4, Et, Ea.
    apply Nat.leb_le in H2, H5. rewrite H2, H5. reflexivity.
Qed.

(** ** What each handler computes *)

Arguments applySetters : simpl never.
Arguments validatePaths : simpl never.
Arguments castTags : simpl never.
Arguments or_empty : simpl never.

Ltac run :=
  unfold try_catch, bind, Blog_new, save, findById, findByIdAndUpdate,
    findByIdAndDelete, find_sort_createdAt_desc, castId, ObjectId_new,
    Date_now, storage, collection, store, ret, throw, set_updatedAt;
  simpl.

Section Handlers.

Variable R : Runtime.

Lemma post_blog_invalid (b : Req.body) (w : World) :
  validationResult b <> [] ->
  post_blog R b w = (validation_failed (validationResult b), w).
Proof.
  intros H. unfold post_blog. rewrite validateBlog_eq.
  destruct (validationResult b); [contradiction | reflexivity].
Qed.

Lemma put_blog_invalid (id : string) (b : Req.body) (w : World) :
  validationResult b <> [] ->
  put_blog R id b w = (validation_failed (validationResult b), w).
Proof.
  intros H. unfold put_blog. rewrite validateBlog_eq.
  destruct (validationResult b); [contradiction | reflexivity].
Qed.

(** A creation the schema does not take fails in [save], before the
    [pre("save")] hook and before any call on the storage layer. *)
Lemma post_blog_valid (b : Req.body) (w : World) :
  validationResult b = [] ->
  post_blog R b w =
  let d := created R b w in
  if accepted b then
    if reachable w && negb (existsb (eq_id (_id d)) (docs w)) then
      (mkResponse 201 [("success", VBool true);
                       ("message", VStr "Blog created successfully");
                       ("data", VDoc d)],
       mkWorld (docs w ++ [d]) true (3 + ticks w) (S (issued w))
               (OpInsertOne d :: trace w))
    else
      (server_error "Error creating blog",
       mkWorld (docs w) (reachable w) (3 + ticks w) (S (issued w))
               (OpInsertOne d :: trace w))
  else
    (server_error "Error creating blog",
     mkWorld (docs w) (reachable w) (2 + ticks w) (S (issued w)) (trace w)).
Proof.
  intros Hv. cbv zeta.
  pose proof (tags_cast b) as Hc. specialize (fun l => Hc l Hv).
  unfold accepted, castable. rewrite schema_valid_eq.
  unfold post_blog. rewrite validateBlog_eq, Hv.
  destruct w as [ds up tk iss tr]; simpl in *.
  run.
  rewrite (proj1 (setters_keep _)), (proj1 (proj2 (setters_keep _))),
    (proj2 (proj2 (setters_keep _))).
  destruct (castTags blogSchema (or_empty (Req.tags b))) as [l|] eqn:C; run.
  - rewrite (Hc l eq_refl).
    destruct (validatePaths blogSchema _ _ _); run; [|reflexivity].
    destruct up; run; [|reflexivity].
    destruct (existsb (eq_id (newObjectId R iss)) ds); reflexivity.
  - reflexivity.
Qed.

Lemma get_blogs_run (w : World) :
  get_blogs w =
  (if reachable w then
     mkResponse 200 [("success", VBool true);
                     ("count", VNum (Z.of_nat (List.length (sortDesc (docs w)))));
                     ("data", VDocs (sortDesc (docs w)))]
   else server_error "Error fetching blogs",
   mkWorld (docs w) (reachable w) (ticks w) (issued w) (OpFind :: trace w)).
Proof.
  destruct w as [ds up tk iss tr]; simpl. unfold get_blogs. run.
  destruct up; reflexivity.
Qed.

Lemma get_blog_malformed (id : string) (w : World) :
  castObjectId R id = None -> get_blog R id w = (invalid_id, w).
Proof.
  intros H. unfold get_blog. run. rewrite H. reflexivity.
Qed.

Lemma get_blog_wellformed (id : string) (i : ObjectId) (w : World) :
  castObjectId R id = Some i ->
  get_blog R id w =
  (if reachable w then
     match find (eq_id i) (docs w) with
     | Some d => mkResponse 200 [("success", VBool true); ("data", VDoc d)]
     | None => not_found
     end
   else server_error "Error fetching blog",
   mkWorld (docs w) (reachable w) (ticks w) (issued w) (OpFindOne i :: trace w)).
Proof.
  intros H. destruct w as [ds up tk iss tr]; simpl.
  unfold get_blog. run. rewrite H. run.
  destruct up; run; [|reflexivity].
  destruct (find (eq_id i) ds); reflexivity.
Qed.

Lemma delete_blog_malformed (id : string) (w : World) :
  castObjectId R id = None -> delete_blog R id w = (invalid_id, w).
Proof.
  intros H. unfold delete_blog. run. rewrite H. reflexivity.
Qed.

Lemma delete_blog_wellformed (id : string) (i : ObjectId) (w : World) :
  castObjectId R id = Some i ->
  delete_blog R id w =
  (if reachable w then
     match find (eq_id i) (docs w) with
     | Some d => mkResponse 200 [("success", VBool true);
                                  ("message", VStr "Blog deleted successfully")]
     | None => not_found
     end
   else server_error "Error deleting blog",
   mkWorld (if reachable w then removeOne i (docs w) else docs w)
           (reachable w) (ticks w) (issued w) (OpFindOneAndDelete i :: trace w)).
Proof.
  intros H. destruct w as [ds up tk iss tr]; simpl.
  unfold delete_blog. run. rewrite H. run.
  destruct up; run; [|reflexivity].
  destruct (find (eq_id i) ds); reflexivity.
Qed.

Lemma put_blog_malformed (id : string) (b : Req.body) (w : World) :
  validationResult b = [] ->
  castObjectId R id = None ->
  put_blog R id b w =
  (invalid_id, mkWorld (docs w) (reachable w) (S (ticks w)) (issued w) (trace w)).
Proof.
  intros Hv H. unfold put_blog. rewrite validateBlog_eq, Hv.
  run. rewrite H. reflexivity.
Qed.

(** An update whose tags cannot be cast throws a CastError, which the
    handler answers like a malformed identifier; one whose texts the
    validators of the schema reject is answered 500.  Neither gets as far
    as the storage layer. *)
Lemma put_blog_wellformed (id : string) (i : ObjectId) (b : Req.body) (w : World) :
  validationResult b = [] ->
  castObjectId R id = Some i ->
  put_blog R id b w =
  if castable b then
    if schema_valid b then
      (if reachable w then
         match find (eq_id i) (docs w) with
         | Some old => mkResponse 200 [("success", VBool true);
                                        ("message", VStr "Blog updated successfully");
                                        ("data", VDoc (updated R b w old))]
         | None => not_found
         end
       else server_error "Error updating blog",
       mkWorld (if reachable w then replaceOne i (updated R b w) (docs w) else docs w)
               (reachable w) (S (ticks w)) (issued w)
               (OpFindOneAndUpdate i :: trace w))
    else
      (server_error "Error updating blog",
       mkWorld (docs w) (reachable w) (S (ticks w)) (issued w) (trace w))
  else
    (invalid_id, mkWorld (docs w) (reachable w) (S (ticks w)) (issued w) (trace w)).
Proof.
  intros Hv H.
  pose proof (tags_cast b) as Hc. specialize (fun l => Hc l Hv).
  unfold castable. rewrite schema_valid_eq.
  unfold put_blog. rewrite validateBlog_eq, Hv.
  destruct w as [ds up tk iss tr]; simpl in *.
  run. rewrite H. run.
  rewrite (proj1 (setters_keep _)), (proj1 (proj2 (setters_keep _))),
    (proj2 (proj2 (setters_keep _))).
  destruct (castTags blogSchema (or_empty (Req.tags b))) as [l|] eqn:C; run.
  - rewrite (Hc l eq_refl).
    destruct (validatePaths blogSchema _ _ _); run; [|reflexivity].
    unfold updated; simpl.
    destruct up; run; [|reflexivity].
    destruct (find (eq_id i) ds); reflexivity.
  - reflexivity.
Qed.

End Handlers.

(** ** The collection *)

Lemma find_eq_id (l : list Blog) (i : ObjectId) (d : Blog) :
  find (eq_id i) l = Some d -> In d l /\ _id d = i.
Proof.
  intros H. apply find_some in H. destruct H as [Hin He].
  split; [exact Hin | apply N.eqb_eq; exact He].
Qed.

Lemma find_none_id (l : list Blog) (i : ObjectId) :
  find (eq_id i) l = None -> forall d, In d l -> _id d <> i.
Proof.
  intros H d Hin He. apply (find_none _ _ H) in Hin.
  unfold eq_id in Hin. apply N.eqb_neq in Hin. contradiction.
Qed.

Lemma existsb_unused (l : list Blog) (i : ObjectId) :
  (forall d, In d l -> _id d <> i) -> existsb (eq_id i) l = false.
Proof.
  intros H. induction l as [|x l IH]; [reflexivity|].
  simpl. unfold eq_id at 1. rewrite (proj2 (N.eqb_neq _ _) (H x (or_introl eq_refl))).
  apply IH. intros d Hd. apply H. right. exact Hd.
Qed.

Lemma find_appended (l : list Blog) (d : Blog) :
  existsb (eq_id (_id d)) l = false ->
  find (eq_id (_id d)) (l ++ [d]) = Some d.
Proof.
  induction l as [|x l IH]; simpl; intros H.
  - unfold eq_id. rewrite N.eqb_refl. reflexivity.
  - apply orb_false_iff in H. destruct H as [Hx Hl]. rewrite Hx. apply IH, Hl.
Qed.

Section Replace.

Variables (i : ObjectId) (f : Blog -> Blog).
Hypothesis f_keeps_id : forall d, _id (f d) = _id d.

Lemma replaceOne_ids (l : list Blog) : map _id (replaceOne i f l) = map _id l.
Proof.
  induction l as [|x l IH]; [reflexivity|].
  simpl. destruct (eq_id i x); simpl; [rewrite f_keeps_id | rewrite IH]; reflexivity.
Qed.

Lemma replaceOne_length (l : list Blog) :
  List.length (replaceOne i f l) = List.length l.
Proof.
  rewrite <- (length_map _id), replaceOne_ids. apply length_map.
Qed.

Lemma find_replaceOne_same (l : list Blog) :
  find (eq_id i) (replaceOne i f l) = option_map f (find (eq_id i) l).
Proof.
  induction l as [|x l IH]; [reflexivity|].
  simpl. destruct (eq_id i x) eqn:E; simpl.
  - unfold eq_id in *. rewrite f_keeps_id, E. reflexivity.
  - rewrite E. exact IH.
Qed.

Lemma find_replaceOne_other (j : ObjectId) (l : list Blog) :
  j <> i -> find (eq_id j) (replaceOne i f l) = find (eq_id j) l.
Proof.
  intros Hj. induction l as [|x l IH]; [reflexivity|].
  simpl. destruct (eq_id i x) eqn:E; simpl.
  - unfold eq_id in *. rewrite f_keeps_id. apply N.eqb_eq in E.
    rewrite E. rewrite (proj2 (N.eqb_neq _ _) (not_eq_sym Hj)). reflexivity.
  - rewrite IH. reflexivity.
Qed.

End Replace.

Lemma In_replaceOne (i : ObjectId) (f : Blog -> Blog) (l : list Blog) (d : Blog) :
  In d (replaceOne i f l) -> In d l \/ exists old, In old l /\ d = f old.
Proof.
  induction l as [|x l IH]; simpl; [tauto|].
  destruct (eq_id i x); simpl.
  - intros [H | H]; [right; exists x; auto | left; auto].
  - intros [H | H]; [left; auto|].
    destruct (IH H) as [H1 | (old & H1 & H2)]; [left; auto | right; exists old; auto].
Qed.

Lemma In_removeOne (i : ObjectId) (l : list Blog) (d : Blog) :
  In d (removeOne i l) -> In d l.
Proof.
  induction l as [|x l IH]; simpl; [tauto|].
  destruct (eq_id i x); simpl; [auto|]. intros [H | H]; auto.
Qed.

Lemma NoDup_removeOne (i : ObjectId) (l : list Blog) :
  NoDup (map _id l) -> NoDup (map _id (removeOne i l)).
Proof.
  induction l as [|x l IH]; simpl; intros H; [exact H|].
  inversion H as [|? ? Hn Hd]; subst.
  destruct (eq_id i x); simpl; [exact Hd|].
  constructor; [|apply IH, Hd].
  intros Hin. apply Hn. apply in_map_iff in Hin. destruct Hin as (d & He & Hin).
  apply in_map_iff. exists d. split; [exact He | eapply In_removeOne, Hin].
Qed.

(** Once removed, an identifier is gone (identifiers being unique). *)
Lemma find_removeOne (i : ObjectId) (l : list Blog) :
  NoDup (map _id l) -> find (eq_id i) (removeOne i l) = None.
Proof.
  induction l as [|x l IH]; simpl; intros H; [reflexivity|].
  inversion H as [|? ? Hn Hd]; subst.
  destruct (eq_id i x) eqn:E; simpl.
  - destruct (find (eq_id i) l) as [d|] eqn:F; [|reflexivity].
    apply find_eq_id in F. destruct F as [Hin He]. exfalso. apply Hn.
    apply N.eqb_eq in E. rewrite E, <- He. apply in_map, Hin.
  - rewrite E. apply IH, Hd.
Qed.

(** ** Sorting *)

Lemma insertDesc_perm (d : Blog) (l : list Blog) : Permutation (insertDesc d l) (d :: l).
Proof.
  induction l as [|x l IH]; simpl; [apply Permutation_refl|].
  destruct (createdAt x <=? createdAt d)%Z; [apply Permutation_refl|].
  eapply perm_trans; [apply perm_skip, IH | apply perm_swap].
Qed.

Lemma sortDesc_perm (l : list Blog) : Permutation (sortDesc l) l.
Proof.
  induction l as [|x l IH]; simpl; [constructor|].
  eapply perm_trans; [apply insertDesc_perm | apply perm_skip, IH].
Qed.

Lemma insertDesc_sorted (d : Blog) (l : list Blog) :
  StronglySorted newer_or_same l -> StronglySorted newer_or_same (insertDesc d l).
Proof.
  induction l as [|x l IH]; simpl; intros H.
  - constructor; [constructor | constructor].
  - inversion H as [|? ? Hs Hf]; subst.
    destruct (createdAt x <=? createdAt d)%Z eqn:E.
    + apply Z.leb_le in E. constructor; [exact H|].
      constructor; [exact E|].
      eapply Forall_impl; [|exact Hf]. unfold newer_or_same. intros; lia.
    + apply Z.leb_gt in E. constructor; [apply IH, Hs|].
      eapply Permutation_Forall; [apply Permutation_sym, insertDesc_perm|].
      constructor; [unfold newer_or_same; lia | exact Hf].
Qed.

Lemma sortDesc_sorted (l : list Blog) : StronglySorted newer_or_same (sortDesc l).
Proof.
  induction l as [|x l IH]; simpl; [constructor | apply insertDesc_sorted, IH].
Qed.

(** ** Consistent worlds *)

Section Invariant.

Variable R : Runtime.

Lemma consistent_same_docs (w w' : World) :
  Consistent R w -> docs w' = docs w ->
  (ticks w <= ticks w')%nat -> (issued w <= issued w')%nat ->
  Consistent R w'.
Proof.
  intros [Hi Hu Hd] He Ht Hn. constructor; rewrite He.
  - intros d Hin. destruct (Hi d Hin) as (k & Hk & E). exists k. split; [lia | exact E].
  - exact Hu.
  - intros d Hin. destruct (Hd d Hin) as (i & j & Hij & E). exists i, j.
    split; [lia | exact E].
Qed.

(** In a consistent world the next ObjectId is not in use. *)
Lemma consistent_unused (w : World) :
  fresh_ids R -> Consistent R w ->
  forall d, In d (docs w) -> _id d <> newObjectId R (issued w).
Proof.
  intros Hf [Hi _ _] d Hin He. destruct (Hi d Hin) as (k & Hk & E).
  rewrite E in He. apply Hf in He. lia.
Qed.

Lemma consistent_insert (b : Req.body) (w : World) (up : bool) (tr : list StorageOp) :
  fresh_ids R -> Consistent R w ->
  Consistent R (mkWorld (docs w ++ [created R b w]) up (3 + ticks w) (S (issued w)) tr).
Proof.
  intros Hf Hc. pose proof (consistent_unused w Hf Hc) as Hn.
  destruct Hc as [Hi Hu Hd]. constructor; simpl.
  - intros d Hin. apply in_app_iff in Hin. destruct Hin as [Hin | [E | []]].
    + destruct (Hi d Hin) as (k & Hk & E). exists k. split; [lia | exact E].
    + subst d. exists (issued w). split; [lia | reflexivity].
  - rewrite map_app. simpl.
    apply NoDup_app; [exact Hu | repeat constructor; intros [] |].
    intros x Hx [E | []]. apply in_map_iff in Hx.
    destruct Hx as (d & Ed & Hin). apply (Hn d Hin). congruence.
  - intros d Hin. apply in_app_iff in Hin. destruct Hin as [Hin | [E | []]].
    + destruct (Hd d Hin) as (i & j & Hij & E). exists i, j. split; [lia | exact E].
    + subst d. exists (ticks w), (2 + ticks w)%nat. simpl.
      split; [lia | split; reflexivity].
Qed.

Lemma consistent_update (i : ObjectId) (b : Req.body) (w : World) (up : bool)
    (tr : list StorageOp) :
  Consistent R w ->
  Consistent R (mkWorld (replaceOne i (updated R b w) (docs w)) up (S (ticks w))
                        (issued w) tr).
Proof.
  intros [Hi Hu Hd]. constructor; simpl.
  - intros d Hin. apply In_replaceOne in Hin. destruct Hin as [Hin | (old & Hin & E)].
    + exact (Hi d Hin).
    + subst d. exact (Hi old Hin).
  - rewrite replaceOne_ids; [exact Hu | reflexivity].
  - intros d Hin. apply In_replaceOne in Hin. destruct Hin as [Hin | (old & Hin & E)].
    + destruct (Hd d Hin) as (k & j & Hij & E). exists k, j. split; [lia | exact E].
    + subst d. destruct (Hd old Hin) as (k & j & Hij & E1 & E2).
      exists k, (ticks w). simpl. split; [lia | split; [exact E1 | reflexivity]].
Qed.

Lemma consistent_delete (i : ObjectId) (w : World) (up : bool) (tr : list StorageOp) :
  Consistent R w ->
  Consistent R (mkWorld (removeOne i (docs w)) up (ticks w) (issued w) tr).
Proof.
  intros [Hi Hu Hd]. constructor; simpl.
  - intros d Hin. apply (Hi d), (In_removeOne i), Hin.
  - apply NoDup_removeOne, Hu.
  - intros d Hin. apply (Hd d), (In_removeOne i), Hin.
Qed.

(** Every request leaves a consistent world consistent. *)
Lemma router_consistent (rq : Request) (w : World) :
  fresh_ids R -> Consistent R w -> Consistent R (snd (router R rq w)).
Proof.
  intros Hf Hc. destruct rq as [|id|b|id b|id]; simpl.
  - rewrite get_blogs_run. simpl.
    apply (consistent_same_docs w); simpl; auto.
  - destruct (castObjectId R id) as [i|] eqn:E.
    + rewrite (get_blog_wellformed R id i w E). simpl.
      apply (consistent_same_docs w); simpl; auto.
    + rewrite (get_blog_malformed R id w E). exact Hc.
  - destruct (validationResult b) as [|e l] eqn:Hv.
    + rewrite (post_blog_valid R b w Hv). cbv zeta.
      destruct (accepted b);
        [destruct (reachable w &&
                   negb (existsb (eq_id (_id (created R b w))) (docs w)))|];
        simpl.
      * apply consistent_insert; assumption.
      * apply (consistent_same_docs w); simpl; auto.
      * apply (consistent_same_docs w); simpl; auto.
    + rewrite post_blog_invalid; [exact Hc | rewrite Hv; discriminate].
  - destruct (validationResult b) as [|e l] eqn:Hv.
    + destruct (castObjectId R id) as [i|] eqn:E.
      * rewrite (put_blog_wellformed R id i b w Hv E).
        destruct (castable b); [destruct (schema_valid b)|]; simpl.
        -- destruct (reachable w).
           ++ apply consistent_update, Hc.
           ++ apply (consistent_same_docs w); simpl; auto.
        -- apply (consistent_same_docs w); simpl; auto.
        -- apply (consistent_same_docs w); simpl; auto.
      * rewrite (put_blog_malformed R id b w Hv E). simpl.
        apply (consistent_same_docs w); simpl; auto.
    + rewrite put_blog_invalid; [exact Hc | rewrite Hv; discriminate].
  - destruct (castObjectId R id) as [i|] eqn:E.
    + rewrite (delete_blog_wellformed R id i w E). simpl.
      destruct (reachable w).
      * apply consistent_delete, Hc.
      * apply (consistent_same_docs w); simpl; auto.
    + rewrite (delete_blog_malformed R id w E). exact Hc.
Qed.

End Invariant.

Lemma empty_consistent (R : Runtime) (up : bool) : Consistent R (mkWorld [] up 0 0 []).
Proof.
  constructor; simpl; [intros d [] | constructor | intros d []].
Qed.

Lemma counting_fresh (clk : nat -> Z) : fresh_ids (Sample.runtime clk).
Proof.
  intros j k H. cbv [Sample.runtime Sample.counting newObjectId] in H.
  apply N.add_cancel_l in H. apply Nat2N.inj, H.
Qed.

Lemma ticking_monotone : monotone (Sample.runtime Sample.ticking).
Proof.
  intros j k H. cbv [Sample.runtime Sample.ticking clock]. lia.
Qed.

Lemma frozen_monotone : monotone (Sample.runtime Sample.frozen).
Proof.
  intros j k H. cbv [Sample.runtime Sample.frozen clock]. lia.
Qed.

(** ** Validation reports every violated field *)

Lemma in_check (f : string) (ok : bool) (m : string) (e : FieldError) :
  In e (Validator.check f ok m) <-> ok = false /\ e = mkFieldError f m.
Proof.
  destruct ok; simpl; split.
  - intros [].
  - intros [H _]. discriminate.
  - intros [H | []]. auto.
  - intros [_ H]. left. auto.
Qed.

Lemma validationResult_eq (b : Req.body) :
  let t := Text.trim (Validator.toString (Req.title b)) in
  let c := Text.trim (Validator.toString (Req.content b)) in
  let a := Text.trim (Validator.toString (Req.author b)) in
  validationResult b =
  (Validator.check "title" (Validator.notEmpty t) "Title is required" ++
   Validator.check "title" (Validator.isLength_max 100 t)
     "Title cannot exceed 100 characters") ++
  Validator.check "content" (Validator.notEmpty c) "Content is required" ++
  (Validator.check "author" (Validator.notEmpty a) "Author is required" ++
   Validator.check "author" (Validator.isLength_max 50 a)
     "Author name cannot exceed 50 characters") ++
  Validator.optional_array "tags" "Tags must be an array" (Req.tags b).
Proof. reflexivity. Qed.

Lemma in_validationResult (b : Req.body) (e : FieldError) :
  let t := Text.trim (Validator.toString (Req.title b)) in
  let c := Text.trim (Validator.toString (Req.content b)) in
  let a := Text.trim (Validator.toString (Req.author b)) in
  In e (validationResult b) <->
  (Text.isEmpty t = true /\ e = mkFieldError "title" "Title is required") \/
  ((100 <? Text.chars t)%nat = true /\
   e = mkFieldError "title" "Title cannot exceed 100 characters") \/
  (Text.isEmpty c = true /\ e = mkFieldError "content" "Content is required") \/
  (Text.isEmpty a = true /\ e = mkFieldError "author" "Author is required") \/
  ((50 <? Text.chars a)%nat = true /\
   e = mkFieldError "author" "Author name cannot exceed 50 characters") \/
  ((exists s, Req.tags b = Some (TagsText s)) /\
   e = mkFieldError "tags" "Tags must be an array").
Proof.
  cbv zeta. rewrite validationResult_eq. cbv zeta.
  rewrite !in_app_iff, !in_check.
  unfold Validator.notEmpty, Validator.isLength_max.
  rewrite !negb_false_iff, !Nat.leb_gt, !Nat.ltb_lt.
  assert (Ht : In e (Validator.optional_array "tags" "Tags must be an array" (Req.tags b))
               <-> (exists s, Req.tags b = Some (TagsText s)) /\
                   e = mkFieldError "tags" "Tags must be an array").
  { destruct (Req.tags b) as [[l|s|l r]|]; simpl.
    - split; [intros [] | intros [[s H] _]; discriminate].
    - split; [intros [H | []]; split; [exists s; reflexivity | auto]
             | intros [_ H]; left; auto].
    - split; [intros [] | intros [[s H] _]; discriminate].
    - split; [intros [] | intros [[s H] _]; discriminate]. }
  rewrite Ht. tauto.
Qed.


(** C5: a create or update request that fails field validation is answered
    400 "Validation failed" with the list of per-field violations, and the
    world is left exactly as it was: no document is written and no call
    reaches the storage layer. *)
Theorem invalid_request_touches_nothing (R : Runtime) (id : string) (b : Req.body)
    (w : World) :
  validationResult b <> [] ->
  forall rq, rq = POST_blog b \/ rq = PUT_blog id b ->
  let (res, w') := router R rq w in
  status res = 400%Z /\
  field "errors" (json res) = Some (VErrors (validationResult b)) /\
  docs w' = docs w /\ trace w' = trace w /\ w' = w.
Proof.
  intros Hv rq [E | E]; subst rq; simpl.
  - rewrite (post_blog_invalid R b w Hv). repeat split.
  - rewrite (put_blog_invalid R id b w Hv). repeat split.
Qed.

Lemma invalid_request_touches_nothing_witness :
  validationResult Sample.blank <> [] /\
  let (res, w') := router (Sample.runtime Sample.ticking)
                          (PUT_blog "not-an-id" Sample.blank) Sample.shelf in
  status res = 400%Z /\
  field "errors" (json res) = Some (VErrors (validationResult Sample.blank)) /\
  docs w' = docs Sample.shelf /\ trace w' = trace Sample.shelf /\ w' = Sample.shelf.
Proof.
  split; [vm_compute; discriminate|].
  apply (invalid_request_touches_nothing (Sample.runtime Sample.ticking)
           "not-an-id" Sample.blank Sample.shelf).
  - vm_compute; discriminate.
  - right; reflexivity.
Defined.



(** C9: the response of each of the five handlers carries a boolean
    [success], which is [true] exactly when the status is 2xx; the status is
    one of 200, 201, 400, 404 and 500, so [success] is [false] on every 400,
    404 and 500. *)
Theorem success_flag_tracks_status (R : Runtime) (rq : Request) (w : World) :
  let res := fst (router R rq w) in
  field "success" (json res) = Some (VBool (is2xx (status res))) /\
  In (status res) [200; 201; 400; 404; 500]%Z.
Proof.
  destruct rq as [|id|b|id b|id]; simpl.
  - rewrite get_blogs_run. destruct (reachable w); simpl; tauto.
  - destruct (castObjectId R id) as [i|] eqn:E.
    + rewrite (get_blog_wellformed R id i w E).
      destruct (reachable w); [destruct (find (eq_id i) (docs w))|]; simpl; tauto.
    + rewrite (get_blog_malformed R id w E). simpl; tauto.
  - destruct (validationResult b) as [|e l] eqn:Hv.
    + rewrite (post_blog_valid R b w Hv). cbv zeta.
      destruct (accepted b);
        [destruct (reachable w &&
                   negb (existsb (eq_id (_id (created R b w))) (docs w)))|];
        simpl; tauto.
    + rewrite post_blog_invalid; [simpl; tauto | rewrite Hv; discriminate].
  - destruct (validationResult b) as [|e l] eqn:Hv.
    + destruct (castObjectId R id) as [i|] eqn:E.
      * rewrite (put_blog_wellformed R id i b w Hv E).
        destruct (castable b);
          [destruct (schema_valid b);
           [destruct (reachable w); [destruct (find (eq_id i) (docs w))|]|]|];
          simpl; tauto.
      * rewrite (put_blog_malformed R id b w Hv E). simpl; tauto.
    + rewrite put_blog_invalid; [simpl; tauto | rewrite Hv; discriminate].
  - destruct (castObjectId R id) as [i|] eqn:E.
    + rewrite (delete_blog_wellformed R id i w E).
      destruct (reachable w); [destruct (find (eq_id i) (docs w))|]; simpl; tauto.
    + rewrite (delete_blog_malformed R id w E). simpl; tauto.
Qed.

(** C6: whatever the collection holds and in whatever order it was filled,
    the list operation answers (the storage layer being reachable) with
    [success: true], the documents of the collection ordered by [createdAt]
    descending, and [count] equal to their number. *)
Theorem list_newest_first (w : World) :
  reachable w = true ->
  exists blogs,
    fst (get_blogs w) =
      mkResponse 200 [("success", VBool true);
                      ("count", VNum (Z.of_nat (List.length blogs)));
                      ("data", VDocs blogs)] /\
    Permutation blogs (docs w) /\
    StronglySorted newer_or_same blogs.
Proof.
  intros Hr. exists (sortDesc (docs w)). rewrite get_blogs_run, Hr.
  split; [reflexivity|]. split; [apply sortDesc_perm | apply sortDesc_sorted].
Qed.

Lemma list_newest_first_witness :
  reachable Sample.shelf = true /\
  exists blogs,
    fst (get_blogs Sample.shelf) =
      mkResponse 200 [("success", VBool true);
                      ("count", VNum (Z.of_nat (List.length blogs)));
                      ("data", VDocs blogs)] /\
    Permutation blogs (docs Sample.shelf) /\
    StronglySorted newer_or_same blogs.
Proof.
  split; [reflexivity|]. apply (list_newest_first Sample.shelf). reflexivity.
Defined.

(** ** Successful creation and update *)

Section Success.

Variable R : Runtime.

Lemma post_blog_created (b : Req.body) (w : World) :
  fresh_ids R -> Consistent R w -> reachable w = true ->
  validationResult b = [] -> accepted b = true ->
  post_blog R b w =
  (mkResponse 201 [("success", VBool true);
                   ("message", VStr "Blog created successfully");
                   ("data", VDoc (created R b w))],
   mkWorld (docs w ++ [created R b w]) true (3 + ticks w) (S (issued w))
           (OpInsertOne (created R b w) :: trace w)).
Proof.
  intros Hf Hc Hr Hv Ha. rewrite (post_blog_valid R b w Hv). cbv zeta.
  rewrite Ha, Hr. simpl (_id (created R b w)).
  rewrite (existsb_unused (docs w) _ (consistent_unused R w Hf Hc)).
  reflexivity.
Qed.

Lemma put_blog_found (id : string) (b : Req.body) (w : World) (old : Blog) :
  reachable w = true ->
  validationResult b = [] -> accepted b = true ->
  lookup R id w = Some old ->
  exists w',
    put_blog R id b w =
    (mkResponse 200 [("success", VBool true);
                     ("message", VStr "Blog updated successfully");
                     ("data", VDoc (updated R b w old))], w') /\
    lookup R id w' = Some (updated R b w old) /\
    List.length (docs w') = List.length (docs w) /\
    (forall j, j <> _id old -> find (eq_id j) (docs w') = find (eq_id j) (docs w)).
Proof.
  intros Hr Hv Ha Hl. unfold lookup in Hl.
  destruct (castObjectId R id) as [i|] eqn:E; [|discriminate].
  unfold accepted in Ha. apply andb_true_iff in Ha. destruct Ha as [Ha1 Ha2].
  rewrite (put_blog_wellformed R id i b w Hv E), Ha1, Ha2, Hr, Hl.
  eexists. split; [reflexivity|]. unfold lookup. rewrite E. simpl.
  assert (K : forall d, _id (updated R b w d) = _id d) by reflexivity.
  split; [|split].
  - rewrite (find_replaceOne_same i _ K), Hl. reflexivity.
  - apply (replaceOne_length i _ K).
  - intros j Hj. apply (find_replaceOne_other i _ K).
    apply find_eq_id in Hl. destruct Hl as [_ Hl]. rewrite <- Hl. exact Hj.
Qed.

End Success.

Lemma seeded_consistent (clk : nat -> Z) :
  Consistent (Sample.runtime clk) (Sample.seeded clk).
Proof.
  apply (router_consistent (Sample.runtime clk) (POST_blog Sample.untagged) Sample.empty).
  - apply counting_fresh.
  - apply empty_consistent.
Qed.

(** C7: a create or update request that passes validation, that the schema
    takes, and that omits [tags] stores an entity whose [tags] is the empty
    sequence (the storage layer being reachable, and for an update the entity
    existing). *)
Theorem omitted_tags_stored_empty (R : Runtime) (b : Req.body) (w : World) :
  fresh_ids R -> Consistent R w -> reachable w = true ->
  validationResult b = [] -> accepted b = true ->
  Req.tags b = None ->
  (exists d w',
     post_blog R b w =
       (mkResponse 201 [("success", VBool true);
                        ("message", VStr "Blog created successfully");
                        ("data", VDoc d)], w') /\
     docs w' = docs w ++ [d] /\ tags d = []) /\
  (forall id old, lookup R id w = Some old ->
     exists d w',
       put_blog R id b w =
         (mkResponse 200 [("success", VBool true);
                          ("message", VStr "Blog updated successfully");
                          ("data", VDoc d)], w') /\
       lookup R id w' = Some d /\ tags d = []).
Proof.
  intros Hf Hc Hr Hv Ha Ht. split.
  - rewrite (post_blog_created R b w Hf Hc Hr Hv Ha).
    eexists _, _. split; [reflexivity|]. split; [reflexivity|].
    simpl. rewrite Ht. reflexivity.
  - intros id old Hl.
    destruct (put_blog_found R id b w old Hr Hv Ha Hl) as (w' & E & Hl' & _).
    exists (updated R b w old), w'. split; [exact E|]. split; [exact Hl'|].
    simpl. rewrite Ht. reflexivity.
Qed.

Lemma omitted_tags_stored_empty_witness :
  (exists d w',
     post_blog Sample.live Sample.untagged Sample.live_seeded =
       (mkResponse 201 [("success", VBool true);
                        ("message", VStr "Blog created successfully");
                        ("data", VDoc d)], w') /\
     docs w' = docs Sample.live_seeded ++ [d] /\ tags d = []) /\
  (exists d w',
     put_blog Sample.live Sample.first_id Sample.untagged Sample.live_seeded =
       (mkResponse 200 [("success", VBool true);
                        ("message", VStr "Blog updated successfully");
                        ("data", VDoc d)], w') /\
     lookup Sample.live Sample.first_id w' = Some d /\ tags d = []).
Proof.
  destruct (omitted_tags_stored_empty Sample.live Sample.untagged
              Sample.live_seeded) as [H1 H2].
  - apply counting_fresh.
  - apply seeded_consistent.
  - reflexivity.
  - reflexivity.
  - reflexivity.
  - reflexivity.
  - split; [exact H1|]. eapply (H2 Sample.first_id). reflexivity.
Defined.

(** C10: a create request that passes validation and that the schema takes
    stores its [title],
    [content] and [author] trimmed: the stored texts are the trimmed inputs,
    carry no surrounding whitespace and so differ from an input that did, and
    a fetch by the returned id right after the creation answers with the same
    trimmed document. *)
Theorem created_blog_is_trimmed (R : Runtime) (b : Req.body) (w : World) :
  fresh_ids R -> Consistent R w -> reachable w = true ->
  validationResult b = [] -> accepted b = true ->
  castObjectId R (showObjectId R (newObjectId R (issued w))) =
    Some (newObjectId R (issued w)) ->
  exists d w',
    post_blog R b w =
      (mkResponse 201 [("success", VBool true);
                       ("message", VStr "Blog created successfully");
                       ("data", VDoc d)], w') /\
    title d = Text.trim (Validator.toString (Req.title b)) /\
    content d = Text.trim (Validator.toString (Req.content b)) /\
    author d = Text.trim (Validator.toString (Req.author b)) /\
    (forall raw, Text.padded raw = true ->
       (Req.title b = Some raw -> title d <> raw) /\
       (Req.content b = Some raw -> content d <> raw) /\
       (Req.author b = Some raw -> author d <> raw)) /\
    In d (docs w') /\
    fst (get_blog R (showObjectId R (_id d)) w') =
      mkResponse 200 [("success", VBool true); ("data", VDoc d)].
Proof.
  intros Hf Hc Hr Hv Ha Hs.
  rewrite (post_blog_created R b w Hf Hc Hr Hv Ha).
  eexists _, _. split; [reflexivity|].
  split; [reflexivity|]. split; [reflexivity|]. split; [reflexivity|].
  split; [|split].
  - intros raw Hp. simpl.
    repeat split; intros E; rewrite E; simpl; apply padded_not_trimmed, Hp.
  - simpl. apply in_app_iff. right. left. reflexivity.
  - simpl (_id (created R b w)).
    rewrite (get_blog_wellformed R _ _ _ Hs). simpl.
    change (newObjectId R (issued w)) with (_id (created R b w)).
    rewrite find_appended; [reflexivity|].
    apply existsb_unused, (consistent_unused R w Hf Hc).
Qed.

Lemma created_blog_is_trimmed_witness :
  exists d w',
    post_blog Sample.live Sample.hello Sample.empty =
      (mkResponse 201 [("success", VBool true);
                       ("message", VStr "Blog created successfully");
                       ("data", VDoc d)], w') /\
    title d = Text.trim (Validator.toString (Req.title Sample.hello)) /\
    content d = Text.trim (Validator.toString (Req.content Sample.hello)) /\
    author d = Text.trim (Validator.toString (Req.author Sample.hello)) /\
    (forall raw, Text.padded raw = true ->
       (Req.title Sample.hello = Some raw -> title d <> raw) /\
       (Req.content Sample.hello = Some raw -> content d <> raw) /\
       (Req.author Sample.hello = Some raw -> author d <> raw)) /\
    In d (docs w') /\
    fst (get_blog Sample.live (showObjectId Sample.live (_id d)) w') =
      mkResponse 200 [("success", VBool true); ("data", VDoc d)].
Proof.
  apply (created_blog_is_trimmed Sample.live Sample.hello Sample.empty).
  - apply counting_fresh.
  - apply empty_consistent.
  - reflexivity.
  - reflexivity.
  - reflexivity.
  - vm_compute. reflexivity.
Defined.

(** C1 as stated fails: with a clock that advances between the construction
    of the document and the [pre("save")] hook, the created entity has
    [createdAt] different from [updatedAt]. *)
Lemma create_dates_differ :
  validationResult Sample.untagged = [] /\
  exists d w',
    post_blog (Sample.runtime Sample.ticking) Sample.untagged Sample.empty =
      (mkResponse 201 [("success", VBool true);
                       ("message", VStr "Blog created successfully");
                       ("data", VDoc d)], w') /\
    In d (docs w') /\
    createdAt d <> updatedAt d.
Proof.
  split; [reflexivity|].
  eexists _, _. split; [vm_compute; reflexivity|].
  split; [left; reflexivity | vm_compute; discriminate].
Qed.

(** C1, amended: for every creation input that passes validation and that
    the schema takes (title and author within 100 and 50 code units, tags
    that can be cast to texts), in a consistent world with a reachable
    storage layer, the create operation appends one new entity to
    the collection and returns it; its [_id] is the ObjectId generated for
    it, used by no other entity; [createdAt] is the clock reading taken when
    the document is constructed and [updatedAt] the reading taken by the
    [pre("save")] hook, so [createdAt <= updatedAt], with equality exactly
    when the clock did not advance in between. *)
Theorem create_persists_stamped (R : Runtime) (b : Req.body) (w : World) :
  fresh_ids R -> monotone R -> Consistent R w -> reachable w = true ->
  validationResult b = [] -> accepted b = true ->
  exists d w',
    post_blog R b w =
      (mkResponse 201 [("success", VBool true);
                       ("message", VStr "Blog created successfully");
                       ("data", VDoc d)], w') /\
    docs w' = docs w ++ [d] /\
    _id d = newObjectId R (issued w) /\
    (forall x, In x (docs w) -> _id x <> _id d) /\
    createdAt d = clock R (ticks w) /\
    updatedAt d = clock R (2 + ticks w) /\
    (createdAt d <= updatedAt d)%Z /\
    (createdAt d = updatedAt d <-> clock R (ticks w) = clock R (2 + ticks w)).
Proof.
  intros Hf Hm Hc Hr Hv Ha.
  rewrite (post_blog_created R b w Hf Hc Hr Hv Ha).
  eexists _, _. split; [reflexivity|]. split; [reflexivity|].
  split; [reflexivity|]. split; [exact (consistent_unused R w Hf Hc)|].
  split; [reflexivity|]. split; [reflexivity|].
  split; [apply Hm; lia | reflexivity].
Qed.

Lemma create_persists_stamped_witness :
  exists d w',
    post_blog Sample.live Sample.hello Sample.live_seeded =
      (mkResponse 201 [("success", VBool true);
                       ("message", VStr "Blog created successfully");
                       ("data", VDoc d)], w') /\
    docs w' = docs Sample.live_seeded ++ [d] /\
    _id d = newObjectId Sample.live (issued Sample.live_seeded) /\
    (forall x, In x (docs Sample.live_seeded) -> _id x <> _id d) /\
    createdAt d = clock Sample.live (ticks Sample.live_seeded) /\
    updatedAt d = clock Sample.live (2 + ticks Sample.live_seeded) /\
    (createdAt d <= updatedAt d)%Z /\
    (createdAt d = updatedAt d <->
     clock Sample.live (ticks Sample.live_seeded) =
     clock Sample.live (2 + ticks Sample.live_seeded)).
Proof.
  apply (create_persists_stamped Sample.live Sample.hello Sample.live_seeded).
  - apply counting_fresh.
  - apply ticking_monotone.
  - apply seeded_consistent.
  - reflexivity.
  - reflexivity.
  - reflexivity.
Defined.

(** C8 as stated fails: an update that runs in the same millisecond as the
    creation leaves [updatedAt] equal to what it was, not strictly
    greater. *)
Lemma update_same_millisecond :
  exists old new w',
    lookup Sample.still Sample.first_id Sample.still_seeded = Some old /\
    put_blog Sample.still Sample.first_id Sample.hello Sample.still_seeded =
      (mkResponse 200 [("success", VBool true);
                       ("message", VStr "Blog updated successfully");
                       ("data", VDoc new)], w') /\
    lookup Sample.still Sample.first_id w' = Some new /\
    ~ (updatedAt old < updatedAt new)%Z.
Proof.
  eexists _, _, _.
  split; [reflexivity|]. split; [reflexivity|]. split; [reflexivity|].
  cbv. discriminate.
Qed.

(** C8, amended: for every successful update of an existing entity (a body
    that passes validation and that the schema takes, in a consistent world,
    with a clock that does not run backwards) the entity's
    [updatedAt] becomes the clock reading taken by the
    [pre("findOneAndUpdate")] hook, which is not smaller than the [updatedAt]
    before the update and strictly greater exactly when the clock has moved
    past it, while [createdAt] is unchanged. *)
Theorem update_refreshes_updatedAt (R : Runtime) (id : string) (b : Req.body)
    (w : World) (old : Blog) :
  monotone R -> Consistent R w -> reachable w = true ->
  validationResult b = [] -> accepted b = true ->
  lookup R id w = Some old ->
  exists new w',
    put_blog R id b w =
      (mkResponse 200 [("success", VBool true);
                       ("message", VStr "Blog updated successfully");
                       ("data", VDoc new)], w') /\
    lookup R id w' = Some new /\
    updatedAt new = clock R (ticks w) /\
    (updatedAt old <= updatedAt new)%Z /\
    ((updatedAt old < updatedAt new)%Z <-> (updatedAt old < clock R (ticks w))%Z) /\
    createdAt new = createdAt old.
Proof.
  intros Hm Hc Hr Hv Ha Hl.
  destruct (put_blog_found R id b w old Hr Hv Ha Hl) as (w' & E & Hl' & _).
  exists (updated R b w old), w'. split; [exact E|]. split; [exact Hl'|].
  split; [reflexivity|]. split; [|split; [reflexivity | reflexivity]].
  simpl. unfold lookup in Hl. destruct (castObjectId R id) as [i|]; [|discriminate].
  apply find_eq_id in Hl. destruct Hl as [Hin _].
  destruct (dates_read R w Hc old Hin) as (k & j & Hkj & _ & E2).
  rewrite E2. apply Hm. lia.
Qed.

Lemma update_refreshes_updatedAt_witness :
  exists old,
    lookup Sample.live Sample.first_id Sample.live_seeded = Some old /\
    exists new w',
      put_blog Sample.live Sample.first_id Sample.hello Sample.live_seeded =
        (mkResponse 200 [("success", VBool true);
                         ("message", VStr "Blog updated successfully");
                         ("data", VDoc new)], w') /\
      lookup Sample.live Sample.first_id w' = Some new /\
      updatedAt new = clock Sample.live (ticks Sample.live_seeded) /\
      (updatedAt old <= updatedAt new)%Z /\
      ((updatedAt old < updatedAt new)%Z <->
       (updatedAt old < clock Sample.live (ticks Sample.live_seeded))%Z) /\
      createdAt new = createdAt old.
Proof.
  eexists. split; [reflexivity|].
  apply (update_refreshes_updatedAt Sample.live Sample.first_id Sample.hello
           Sample.live_seeded).
  - apply ticking_monotone.
  - apply seeded_consistent.
  - reflexivity.
  - reflexivity.
  - reflexivity.
  - reflexivity.
Defined.

(** C2 as stated fails: an update whose [title] carries surrounding
    whitespace stores the trimmed text, not the supplied value. *)
Lemma update_stores_trimmed_title :
  exists new w',
    put_blog Sample.live Sample.first_id Sample.hello Sample.live_seeded =
      (mkResponse 200 [("success", VBool true);
                       ("message", VStr "Blog updated successfully");
                       ("data", VDoc new)], w') /\
    lookup Sample.live Sample.first_id w' = Some new /\
    Req.title Sample.hello = Some "  Hello  " /\
    title new = "Hello" /\
    title new <> "  Hello  ".
Proof.
  eexists _, _.
  split; [reflexivity|]. split; [reflexivity|]. split; [reflexivity|].
  split; [reflexivity|]. cbv. discriminate.
Qed.

(** C2, amended: a successful update of an existing entity (a body that
    passes validation and that the schema takes) overwrites
    [title], [content] and [author] with the supplied texts trimmed of
    surrounding whitespace and [tags] with the supplied tags, each trimmed
    (the empty sequence when [tags] is omitted), sets [updatedAt] to the
    current clock reading, leaves [createdAt] and [_id] unchanged, leaves
    every other entity of the collection as it was, and returns the updated
    entity. *)
Theorem update_overwrites_fields (R : Runtime) (id : string) (b : Req.body)
    (w : World) (old : Blog) :
  reachable w = true ->
  validationResult b = [] -> accepted b = true ->
  lookup R id w = Some old ->
  exists new w',
    put_blog R id b w =
      (mkResponse 200 [("success", VBool true);
                       ("message", VStr "Blog updated successfully");
                       ("data", VDoc new)], w') /\
    lookup R id w' = Some new /\
    title new = Text.trim (Validator.toString (Req.title b)) /\
    content new = Text.trim (Validator.toString (Req.content b)) /\
    author new = Text.trim (Validator.toString (Req.author b)) /\
    tags new = match Req.tags b with
               | Some (TagsArray l) => map Text.trim l
               | _ => []
               end /\
    updatedAt new = clock R (ticks w) /\
    createdAt new = createdAt old /\
    _id new = _id old /\
    List.length (docs w') = List.length (docs w) /\
    (forall j, j <> _id old -> find (eq_id j) (docs w') = find (eq_id j) (docs w)).
Proof.
  intros Hr Hv Ha Hl.
  destruct (put_blog_found R id b w old Hr Hv Ha Hl) as (w' & E & Hl' & Hn & Ho).
  exists (updated R b w old), w'. repeat split; assumption.
Qed.

Lemma update_overwrites_fields_witness :
  exists old,
    lookup Sample.live Sample.first_id Sample.live_seeded = Some old /\
    exists new w',
      put_blog Sample.live Sample.first_id Sample.hello Sample.live_seeded =
        (mkResponse 200 [("success", VBool true);
                         ("message", VStr "Blog updated successfully");
                         ("data", VDoc new)], w') /\
      lookup Sample.live Sample.first_id w' = Some new /\
      title new = Text.trim (Validator.toString (Req.title Sample.hello)) /\
      content new = Text.trim (Validator.toString (Req.content Sample.hello)) /\
      author new = Text.trim (Validator.toString (Req.author Sample.hello)) /\
      tags new = match Req.tags Sample.hello with
                 | Some (TagsArray l) => map Text.trim l
                 | _ => []
                 end /\
      updatedAt new = clock Sample.live (ticks Sample.live_seeded) /\
      createdAt new = createdAt old /\
      _id new = _id old /\
      List.length (docs w') = List.length (docs Sample.live_seeded) /\
      (forall j, j <> _id old ->
         find (eq_id j) (docs w') = find (eq_id j) (docs Sample.live_seeded)).
Proof.
  eexists. split; [reflexivity|].
  apply (update_overwrites_fields Sample.live Sample.first_id Sample.hello
           Sample.live_seeded).
  - reflexivity.
  - reflexivity.
  - reflexivity.
  - reflexivity.
Defined.

(** C3 as stated fails for the update operation: with a body that fails
    validation, a well-formed identifier of no stored document is answered
    400 "Validation failed", not 404. *)
Lemma update_invalid_body_absent_id :
  wellFormed Sample.live Sample.other_id = true /\
  lookup Sample.live Sample.other_id Sample.live_seeded = None /\
  reachable Sample.live_seeded = true /\
  fst (put_blog Sample.live Sample.other_id Sample.blank Sample.live_seeded) =
    validation_failed (validationResult Sample.blank) /\
  status (fst (put_blog Sample.live Sample.other_id Sample.blank Sample.live_seeded))
    = 400%Z /\
  status (fst (put_blog Sample.live Sample.other_id Sample.blank Sample.live_seeded))
    <> 404%Z.
Proof.
  repeat split. cbv. discriminate.
Qed.

(** C3, amended: for get-by-id and delete, and for update when the request
    body passes validation, a malformed identifier is answered 400 "Invalid
    blog ID"; a well-formed identifier of no stored document is answered 404
    "Blog not found" (the storage layer being reachable) by get-by-id and
    delete, and by update when the request body passes validation and the
    schema takes it (tags that can be cast to texts, title and author within
    100 and 50 code units).  An update whose body fails validation is
    answered 400 "Validation failed" whatever the identifier.  In no case
    does a malformed identifier yield 404. *)
Theorem identifier_errors (R : Runtime) (id : string) (b : Req.body) (w : World) :
  (wellFormed R id = false ->
     fst (get_blog R id w) = invalid_id /\
     fst (delete_blog R id w) = invalid_id /\
     (validationResult b = [] -> fst (put_blog R id b w) = invalid_id) /\
     status (fst (get_blog R id w)) <> 404%Z /\
     status (fst (delete_blog R id w)) <> 404%Z /\
     status (fst (put_blog R id b w)) <> 404%Z) /\
  (wellFormed R id = true -> lookup R id w = None -> reachable w = true ->
     fst (get_blog R id w) = not_found /\
     fst (delete_blog R id w) = not_found /\
     (validationResult b = [] -> accepted b = true ->
      fst (put_blog R id b w) = not_found)) /\
  (validationResult b <> [] ->
     fst (put_blog R id b w) = validation_failed (validationResult b)).
Proof.
  unfold wellFormed, lookup. split; [|split].
  - destruct (castObjectId R id) as [i|] eqn:E; [discriminate|]. intros _.
    rewrite (get_blog_malformed R id w E), (delete_blog_malformed R id w E).
    split; [reflexivity|]. split; [reflexivity|].
    split; [intros Hv; rewrite (put_blog_malformed R id b w Hv E); reflexivity|].
    split; [discriminate|]. split; [discriminate|].
    destruct (validationResult b) as [|e l] eqn:Hv.
    + rewrite (put_blog_malformed R id b w Hv E). discriminate.
    + rewrite put_blog_invalid; [discriminate | rewrite Hv; discriminate].
  - destruct (castObjectId R id) as [i|] eqn:E; [|discriminate]. intros _ Hl Hr.
    rewrite (get_blog_wellformed R id i w E), (delete_blog_wellformed R id i w E).
    rewrite Hr, Hl. split; [reflexivity|]. split; [reflexivity|].
    intros Hv Ha. unfold accepted in Ha. apply andb_true_iff in Ha.
    destruct Ha as [Ha1 Ha2].
    rewrite (put_blog_wellformed R id i b w Hv E), Ha1, Ha2, Hr, Hl. reflexivity.
  - intros Hv. rewrite (put_blog_invalid R id b w Hv). reflexivity.
Qed.

Lemma identifier_errors_witness :
  (fst (get_blog Sample.live "not-an-id" Sample.live_seeded) = invalid_id /\
   fst (delete_blog Sample.live "not-an-id" Sample.live_seeded) = invalid_id /\
   fst (put_blog Sample.live "not-an-id" Sample.hello Sample.live_seeded) = invalid_id) /\
  (fst (get_blog Sample.live Sample.other_id Sample.live_seeded) = not_found /\
   fst (delete_blog Sample.live Sample.other_id Sample.live_seeded) = not_found /\
   fst (put_blog Sample.live Sample.other_id Sample.hello Sample.live_seeded)
     = not_found) /\
  fst (put_blog Sample.live Sample.other_id Sample.blank Sample.live_seeded) =
    validation_failed (validationResult Sample.blank).
Proof.
  split; [|split].
  - destruct (identifier_errors Sample.live "not-an-id" Sample.hello
                Sample.live_seeded) as (H & _ & _).
    destruct (H eq_refl) as (H1 & H2 & H3 & _).
    split; [exact H1|]. split; [exact H2|]. apply H3. reflexivity.
  - destruct (identifier_errors Sample.live Sample.other_id Sample.hello
                Sample.live_seeded) as (_ & H & _).
    destruct (H eq_refl eq_refl eq_refl) as (H1 & H2 & H3).
    split; [exact H1|]. split; [exact H2|]. apply H3; reflexivity.
  - destruct (identifier_errors Sample.live Sample.other_id Sample.blank
                Sample.live_seeded) as (_ & _ & H).
    apply H. vm_compute. discriminate.
Defined.

(** ** Scenarios *)

Example empty_title_is_required :
  fst (post_blog Sample.live
         (Req.mkBody (Some "") (Some "text") (Some "ann") None) Sample.empty) =
  validation_failed [mkFieldError "title" "Title is required"].
Proof. reflexivity. Qed.

Example overlong_title_is_rejected :
  fst (post_blog Sample.live Sample.overlong Sample.empty) =
  validation_failed [mkFieldError "title" "Title cannot exceed 100 characters"].
Proof. vm_compute. reflexivity. Qed.

Example malformed_id_is_400 :
  fst (get_blog Sample.live "not-an-id" Sample.live_seeded) = invalid_id.
Proof. reflexivity. Qed.

Example absent_id_is_404 :
  fst (get_blog Sample.live Sample.other_id Sample.live_seeded) = not_found /\
  fst (put_blog Sample.live Sample.other_id Sample.hello Sample.live_seeded) = not_found /\
  fst (delete_blog Sample.live Sample.other_id Sample.live_seeded) = not_found.
Proof. repeat split. Qed.

Example delete_twice :
  status (fst (delete_blog Sample.live Sample.first_id Sample.live_seeded)) = 200%Z /\
  status (fst (delete_blog Sample.live Sample.first_id
                 (snd (delete_blog Sample.live Sample.first_id Sample.live_seeded))))
    = 404%Z.
Proof. split; reflexivity. Qed.

Example unreachable_storage_is_500 :
  fst (get_blogs Sample.unreachable) = server_error "Error fetching blogs" /\
  fst (post_blog Sample.live Sample.hello Sample.unreachable) =
    server_error "Error creating blog".
Proof. split; reflexivity. Qed.

(** A title of 60 emoji passes the chains, which count 60 characters, and
    is rejected by the schema, which counts 120 code units: the creation is
    answered 500 and nothing is stored. *)
Example emoji_title_is_500 :
  validationResult Sample.smileys = [] /\
  accepted Sample.smileys = false /\
  post_blog Sample.live Sample.smileys Sample.empty =
    (server_error "Error creating blog", mkWorld [] true 2 1 []) /\
  fst (put_blog Sample.live Sample.first_id Sample.smileys Sample.live_seeded) =
    server_error "Error updating blog".
Proof. repeat split; vm_compute; reflexivity. Qed.

(** A tag that cannot be cast to a text passes the chains; the update throws
    a CastError, which the handler answers 400 "Invalid blog ID" although the
    identifier is well-formed and the document exists; the creation is
    answered 500. *)
Example uncastable_tag_is_invalid_id :
  validationResult Sample.tagged_object = [] /\
  wellFormed Sample.live Sample.first_id = true /\
  lookup Sample.live Sample.first_id Sample.live_seeded <> None /\
  fst (put_blog Sample.live Sample.first_id Sample.tagged_object Sample.live_seeded)
    = invalid_id /\
  fst (post_blog Sample.live Sample.tagged_object Sample.live_seeded) =
    server_error "Error creating blog".
Proof. repeat split; try (vm_compute; reflexivity). vm_compute. discriminate. Qed.

(** A second delete of the same identifier finds nothing, in any consistent
    world. *)
Lemma delete_is_permanent (R : Runtime) (id : string) (w : World) :
  Consistent R w -> reachable w = true ->
  lookup R id (snd (delete_blog R id w)) = None.
Proof.
  intros Hc Hr. unfold lookup.
  destruct (castObjectId R id) as [i|] eqn:E; [|reflexivity].
  rewrite (delete_blog_wellformed R id i w E), Hr. simpl.
  apply find_removeOne, (ids_unique R w Hc).
Qed.

(** * Further properties of the router *)

(** ** More on the collection *)

Lemma replaceOne_absent (i : ObjectId) (f : Blog -> Blog) (l : list Blog) :
  find (eq_id i) l = None -> replaceOne i f l = l.
Proof.
  induction l as [|x l IH]; simpl; [reflexivity|].
  destruct (eq_id i x); [discriminate|]. intros H. rewrite (IH H). reflexivity.
Qed.

Lemma removeOne_absent (i : ObjectId) (l : list Blog) :
  find (eq_id i) l = None -> removeOne i l = l.
Proof.
  induction l as [|x l IH]; simpl; [reflexivity|].
  destruct (eq_id i x); [discriminate|]. intros H. rewrite (IH H). reflexivity.
Qed.

Lemma removeOne_length (i : ObjectId) (l : list Blog) (d : Blog) :
  find (eq_id i) l = Some d -> S (List.length (removeOne i l)) = List.length l.
Proof.
  induction l as [|x l IH]; simpl; [discriminate|].
  destruct (eq_id i x); [reflexivity|]. intros H. simpl. rewrite (IH H). reflexivity.
Qed.

Lemma find_removeOne_other (i j : ObjectId) (l : list Blog) :
  j <> i -> find (eq_id j) (removeOne i l) = find (eq_id j) l.
Proof.
  intros Hj. induction l as [|x l IH]; [reflexivity|].
  simpl. destruct (eq_id i x) eqn:E; simpl.
  - unfold eq_id in *. apply N.eqb_eq in E. rewrite E.
    rewrite (proj2 (N.eqb_neq _ _) (not_eq_sym Hj)). reflexivity.
  - rewrite IH. reflexivity.
Qed.

Lemma find_app_old (j : ObjectId) (l : list Blog) (d x : Blog) :
  find (eq_id j) l = Some d -> find (eq_id j) (l ++ [x]) = Some d.
Proof.
  induction l as [|y l IH]; simpl; [discriminate|].
  destruct (eq_id j y); [auto | exact IH].
Qed.

(** X1: the two read operations, the list and the fetch by id, leave the
    collection, the clock and the identifier counter as they were, whatever
    they answer; each makes at most one call on the storage layer. *)
Theorem reads_change_nothing (R : Runtime) (id : string) (w : World) :
  forall w', w' = snd (get_blogs w) \/ w' = snd (get_blog R id w) ->
  docs w' = docs w /\ reachable w' = reachable w /\
  ticks w' = ticks w /\ issued w' = issued w /\
  (trace w' = trace w \/ exists op, trace w' = op :: trace w).
Proof.
  intros w' [E | E]; subst w'.
  - rewrite get_blogs_run. simpl. repeat split. right. eauto.
  - destruct (castObjectId R id) as [i|] eqn:C.
    + rewrite (get_blog_wellformed R id i w C). simpl. repeat split. right. eauto.
    + rewrite (get_blog_malformed R id w C). simpl. repeat split. left. reflexivity.
Qed.

Lemma reads_change_nothing_witness :
  docs (snd (get_blog Sample.live Sample.first_id Sample.live_seeded)) =
  docs Sample.live_seeded.
Proof.
  apply (reads_change_nothing Sample.live Sample.first_id Sample.live_seeded).
  right. reflexivity.
Defined.

(** X2: a request that is not answered with a 2xx status leaves the
    collection exactly as it was: no create, update or delete takes effect
    behind a failure response. *)
Theorem failure_leaves_collection (R : Runtime) (rq : Request) (w : World) :
  is2xx (status (fst (router R rq w))) = false ->
  docs (snd (router R rq w)) = docs w.
Proof.
  destruct rq as [|id|b|id b|id]; simpl.
  - rewrite get_blogs_run. reflexivity.
  - destruct (castObjectId R id) as [i|] eqn:E.
    + rewrite (get_blog_wellformed R id i w E). reflexivity.
    + rewrite (get_blog_malformed R id w E). reflexivity.
  - destruct (validationResult b) as [|e l] eqn:Hv.
    + rewrite (post_blog_valid R b w Hv). cbv zeta.
      destruct (accepted b); [|reflexivity].
      destruct (reachable w && negb (existsb (eq_id (_id (created R b w))) (docs w)));
        simpl; [discriminate | reflexivity].
    + rewrite post_blog_invalid; [reflexivity | rewrite Hv; discriminate].
  - destruct (validationResult b) as [|e l] eqn:Hv.
    + destruct (castObjectId R id) as [i|] eqn:E.
      * rewrite (put_blog_wellformed R id i b w Hv E).
        destruct (castable b); [|reflexivity].
        destruct (schema_valid b); [|reflexivity].
        destruct (reachable w); [|reflexivity].
        destruct (find (eq_id i) (docs w)) eqn:F; simpl; [discriminate|].
        intros _. apply replaceOne_absent, F.
      * rewrite (put_blog_malformed R id b w Hv E). reflexivity.
    + rewrite put_blog_invalid; [reflexivity | rewrite Hv; discriminate].
  - destruct (castObjectId R id) as [i|] eqn:E.
    + rewrite (delete_blog_wellformed R id i w E).
      destruct (reachable w); [|reflexivity].
      destruct (find (eq_id i) (docs w)) eqn:F; simpl; [discriminate|].
      intros _. apply removeOne_absent, F.
    + rewrite (delete_blog_malformed R id w E). reflexivity.
Qed.

Lemma failure_leaves_collection_witness :
  docs (snd (router Sample.live (PUT_blog Sample.other_id Sample.hello)
               Sample.live_seeded)) = docs Sample.live_seeded.
Proof.
  apply (failure_leaves_collection Sample.live
           (PUT_blog Sample.other_id Sample.hello) Sample.live_seeded).
  reflexivity.
Defined.

Section Removal.

Variable R : Runtime.

Lemma delete_blog_found (id : string) (w : World) (d : Blog) :
  Consistent R w -> reachable w = true ->
  lookup R id w = Some d ->
  exists w',
    delete_blog R id w =
      (mkResponse 200 [("success", VBool true);
                       ("message", VStr "Blog deleted successfully")], w') /\
    reachable w' = true /\ Consistent R w' /\
    lookup R id w' = None /\
    S (List.length (docs w')) = List.length (docs w) /\
    (forall j, j <> _id d -> find (eq_id j) (docs w') = find (eq_id j) (docs w)).
Proof.
  intros Hc Hr Hl. unfold lookup in Hl.
  destruct (castObjectId R id) as [i|] eqn:E; [|discriminate].
  rewrite (delete_blog_wellformed R id i w E), Hr, Hl.
  eexists. split; [reflexivity|]. split; [reflexivity|].
  split; [apply consistent_delete, Hc|].
  unfold lookup. rewrite E. simpl.
  split; [apply find_removeOne, (ids_unique R w Hc)|].
  split; [apply (removeOne_length i _ d Hl)|].
  intros j Hj. apply find_removeOne_other.
  apply find_eq_id in Hl. destruct Hl as [_ Hl]. rewrite <- Hl. exact Hj.
Qed.

End Removal.

(** X3: a delete of an existing entity answers 200 with a message and no
    entity body, removes that entity and no other: the identifier is no
    longer found, the collection is one entity shorter, and every other
    identifier finds what it found before. *)
Theorem delete_removes_only_target (R : Runtime) (id : string) (w : World) (d : Blog) :
  Consistent R w -> reachable w = true ->
  lookup R id w = Some d ->
  let (res, w') := delete_blog R id w in
  status res = 200%Z /\
  field "message" (json res) = Some (VStr "Blog deleted successfully") /\
  field "data" (json res) = None /\
  lookup R id w' = None /\
  S (List.length (docs w')) = List.length (docs w) /\
  (forall j, j <> _id d -> find (eq_id j) (docs w') = find (eq_id j) (docs w)).
Proof.
  intros Hc Hr Hl.
  destruct (delete_blog_found R id w d Hc Hr Hl) as (w' & E & _ & _ & H1 & H2 & H3).
  rewrite E. repeat split; assumption.
Qed.

Lemma delete_removes_only_target_witness :
  exists d,
    lookup Sample.live Sample.first_id Sample.live_seeded = Some d /\
    let (res, w') := delete_blog Sample.live Sample.first_id Sample.live_seeded in
    status res = 200%Z /\
    field "message" (json res) = Some (VStr "Blog deleted successfully") /\
    field "data" (json res) = None /\
    lookup Sample.live Sample.first_id w' = None /\
    S (List.length (docs w')) = List.length (docs Sample.live_seeded) /\
    (forall j, j <> _id d ->
       find (eq_id j) (docs w') = find (eq_id j) (docs Sample.live_seeded)).
Proof.
  eexists. split; [reflexivity|].
  apply (delete_removes_only_target Sample.live Sample.first_id Sample.live_seeded).
  - apply seeded_consistent.
  - reflexivity.
  - reflexivity.
Defined.

(** X4: once an entity is deleted, a second delete of the same identifier,
    a fetch of it, and an update of it with a body that passes validation and
    that the schema takes are all answered 404. *)
Theorem deleted_is_gone (R : Runtime) (id : string) (b : Req.body) (w : World)
    (d : Blog) :
  Consistent R w -> reachable w = true ->
  lookup R id w = Some d ->
  validationResult b = [] -> accepted b = true ->
  let w' := snd (delete_blog R id w) in
  status (fst (delete_blog R id w)) = 200%Z /\
  fst (delete_blog R id w') = not_found /\
  fst (get_blog R id w') = not_found /\
  fst (put_blog R id b w') = not_found.
Proof.
  intros Hc Hr Hl Hv Ha.
  destruct (delete_blog_found R id w d Hc Hr Hl) as (w' & E & Hr' & _ & Hl' & _).
  rewrite E. simpl. split; [reflexivity|].
  unfold lookup in Hl, Hl'.
  destruct (castObjectId R id) as [i|] eqn:C; [|discriminate].
  unfold accepted in Ha. apply andb_true_iff in Ha. destruct Ha as [Ha1 Ha2].
  rewrite (delete_blog_wellformed R id i w' C), (get_blog_wellformed R id i w' C),
    (put_blog_wellformed R id i b w' Hv C), Ha1, Ha2, Hr', Hl'.
  repeat split.
Qed.

Lemma deleted_is_gone_witness :
  let w' := snd (delete_blog Sample.live Sample.first_id Sample.live_seeded) in
  status (fst (delete_blog Sample.live Sample.first_id Sample.live_seeded)) = 200%Z /\
  fst (delete_blog Sample.live Sample.first_id w') = not_found /\
  fst (get_blog Sample.live Sample.first_id w') = not_found /\
  fst (put_blog Sample.live Sample.first_id Sample.hello w') = not_found.
Proof.
  eapply (deleted_is_gone Sample.live Sample.first_id Sample.hello Sample.live_seeded).
  - apply seeded_consistent.
  - reflexivity.
  - reflexivity.
  - reflexivity.
  - reflexivity.
Defined.

Lemma put_blog_updated (R : Runtime) (id : string) (i : ObjectId) (b : Req.body)
    (w : World) (old : Blog) :
  reachable w = true ->
  validationResult b = [] -> accepted b = true ->
  castObjectId R id = Some i ->
  find (eq_id i) (docs w) = Some old ->
  put_blog R id b w =
  (mkResponse 200 [("success", VBool true);
                   ("message", VStr "Blog updated successfully");
                   ("data", VDoc (updated R b w old))],
   mkWorld (replaceOne i (updated R b w) (docs w)) true (S (ticks w)) (issued w)
           (OpFindOneAndUpdate i :: trace w)).
Proof.
  intros Hr Hv Ha C F.
  unfold accepted in Ha. apply andb_true_iff in Ha. destruct Ha as [Ha1 Ha2].
  rewrite (put_blog_wellformed R id i b w Hv C), Ha1, Ha2, Hr, F.
  reflexivity.
Qed.

(** X5: a fetch by id right after a successful update (a body that passes
    validation and that the schema takes) answers 200 with the entity the
    update returned. *)
Theorem update_then_fetch (R : Runtime) (id : string) (b : Req.body) (w : World)
    (old : Blog) :
  reachable w = true ->
  validationResult b = [] -> accepted b = true ->
  lookup R id w = Some old ->
  exists new,
    field "data" (json (fst (put_blog R id b w))) = Some (VDoc new) /\
    fst (get_blog R id (snd (put_blog R id b w))) =
      mkResponse 200 [("success", VBool true); ("data", VDoc new)].
Proof.
  intros Hr Hv Ha Hl. unfold lookup in Hl.
  destruct (castObjectId R id) as [i|] eqn:C; [|discriminate].
  exists (updated R b w old).
  rewrite (put_blog_updated R id i b w old Hr Hv Ha C Hl). simpl.
  split; [reflexivity|].
  rewrite (get_blog_wellformed R id i _ C). simpl.
  rewrite find_replaceOne_same, Hl; reflexivity.
Qed.

Lemma update_then_fetch_witness :
  exists new,
    field "data" (json (fst (put_blog Sample.live Sample.first_id Sample.hello
                               Sample.live_seeded))) = Some (VDoc new) /\
    fst (get_blog Sample.live Sample.first_id
           (snd (put_blog Sample.live Sample.first_id Sample.hello
                   Sample.live_seeded))) =
      mkResponse 200 [("success", VBool true); ("data", VDoc new)].
Proof.
  eapply (update_then_fetch Sample.live Sample.first_id Sample.hello
            Sample.live_seeded).
  - reflexivity.
  - reflexivity.
  - reflexivity.
  - reflexivity.
Defined.

(** ** Creation and the list *)

Lemma sortDesc_newest (l : list Blog) (d : Blog) :
  (forall x, In x l -> (createdAt x < createdAt d)%Z) ->
  sortDesc (l ++ [d]) = d :: sortDesc l.
Proof.
  induction l as [|x l IH]; intros H; [reflexivity|].
  simpl. rewrite IH by (intros y Hy; apply H; right; exact Hy).
  simpl. pose proof (H x (or_introl eq_refl)) as Hx.
  apply Z.leb_gt in Hx. rewrite Hx. reflexivity.
Qed.

Lemma sortDesc_length (l : list Blog) : List.length (sortDesc l) = List.length l.
Proof. apply Permutation_length, sortDesc_perm. Qed.

(** X6: with a clock that shows a later time at every reading, the list
    right after a successful creation (a body that passes validation and that
    the schema takes) is the created entity followed by the list as it was
    before, and its count is one more. *)
Theorem create_then_list (R : Runtime) (b : Req.body) (w : World) :
  fresh_ids R -> advancing R -> Consistent R w -> reachable w = true ->
  validationResult b = [] -> accepted b = true ->
  exists d,
    field "data" (json (fst (post_blog R b w))) = Some (VDoc d) /\
    field "data" (json (fst (get_blogs w))) = Some (VDocs (sortDesc (docs w))) /\
    fst (get_blogs (snd (post_blog R b w))) =
      mkResponse 200 [("success", VBool true);
                      ("count", VNum (Z.of_nat (S (List.length (docs w)))));
                      ("data", VDocs (d :: sortDesc (docs w)))].
Proof.
  intros Hf Ha Hc Hr Hv Hs. exists (created R b w).
  rewrite (post_blog_created R b w Hf Hc Hr Hv Hs). simpl.
  split; [reflexivity|]. rewrite !get_blogs_run, Hr. simpl.
  split; [reflexivity|].
  rewrite sortDesc_newest.
  - simpl. rewrite sortDesc_length. reflexivity.
  - intros x Hx. destruct (dates_read R w Hc x Hx) as (i & j & Hij & E & _).
    rewrite E. simpl. apply Ha. lia.
Qed.

Lemma ticking_advancing : advancing Sample.live.
Proof.
  intros j k H. cbv [Sample.live Sample.runtime Sample.ticking clock]. lia.
Qed.

Lemma create_then_list_witness :
  exists d,
    field "data" (json (fst (post_blog Sample.live Sample.hello Sample.live_seeded)))
      = Some (VDoc d) /\
    field "data" (json (fst (get_blogs Sample.live_seeded))) =
      Some (VDocs (sortDesc (docs Sample.live_seeded))) /\
    fst (get_blogs (snd (post_blog Sample.live Sample.hello Sample.live_seeded))) =
      mkResponse 200 [("success", VBool true);
                      ("count", VNum (Z.of_nat (S (List.length (docs Sample.live_seeded)))));
                      ("data", VDocs (d :: sortDesc (docs Sample.live_seeded)))].
Proof.
  apply (create_then_list Sample.live Sample.hello Sample.live_seeded).
  - apply counting_fresh.
  - apply ticking_advancing.
  - apply seeded_consistent.
  - reflexivity.
  - reflexivity.
  - reflexivity.
Defined.

(** ** The two layers of validation *)




(** X8: the two layers of validation on the sanitized title, content and
    author of a request.  The setters of the schema leave the sanitized
    texts as they are.  Every error the chains report for these fields the
    schema reports too, with the same message; the schema reports an error
    the chains do not only for a title or an author within the bound as the
    chains count characters and beyond it in code units.  So the chains
    accept every text the schema accepts, and not conversely. *)
Theorem schema_at_least_as_strict (b : Req.body) :
  let t := Text.trim (Validator.toString (Req.title b)) in
  let c := Text.trim (Validator.toString (Req.content b)) in
  let a := Text.trim (Validator.toString (Req.author b)) in
  (applySetters (title_path blogSchema) t = t /\
   applySetters (content_path blogSchema) c = c /\
   applySetters (author_path blogSchema) a = a) /\
  (forall e, In e (validationResult b) -> path e <> "tags" ->
             In e (validatePaths blogSchema t c a)) /\
  (forall e, In e (validatePaths blogSchema t c a) ->
     In e (validationResult b) \/
     (e = mkFieldError "title" "Title cannot exceed 100 characters" /\
      (Text.chars t <= 100 < Text.units t)%nat) \/
     (e = mkFieldError "author" "Author name cannot exceed 50 characters" /\
      (Text.chars a <= 50 < Text.units a)%nat)).
Proof.
  cbv zeta. split; [|split].
  - pose proof (setters_keep (Validator.toString (Req.title b))) as (H1 & _ & _).
    pose proof (setters_keep (Validator.toString (Req.content b))) as (_ & H2 & _).
    pose proof (setters_keep (Validator.toString (Req.author b))) as (_ & _ & H3).
    auto.
  - intros e He Hp. apply in_validationResult in He. cbv zeta in He.
    unfold validatePaths, doValidate.
    cbn [required maxlength title_path content_path author_path blogSchema].
    rewrite !in_app_iff.
    destruct He as [[H E] | [[H E] | [[H E] | [[H E] | [[H E] | [_ E]]]]]]; subst e.
    + rewrite H. left. left. left. reflexivity.
    + apply Nat.ltb_lt in H.
      pose proof (chars_le_units (Text.trim (Validator.toString (Req.title b)))).
      destruct (Nat.leb_spec
                  (Text.units (Text.trim (Validator.toString (Req.title b)))) 100);
        [lia|]. left. right. left. reflexivity.
    + rewrite H. right. left. left. left. reflexivity.
    + rewrite H. right. right. left. left. reflexivity.
    + apply Nat.ltb_lt in H.
      pose proof (chars_le_units (Text.trim (Validator.toString (Req.author b)))).
      destruct (Nat.leb_spec
                  (Text.units (Text.trim (Validator.toString (Req.author b)))) 50);
        [lia|]. right. right. right. left. reflexivity.
    + exfalso. apply Hp. reflexivity.
  - intros e He. unfold validatePaths, doValidate in He.
    cbn [required maxlength title_path content_path author_path blogSchema] in He.
    rewrite !in_app_iff in He. rewrite in_validationResult. cbv zeta.
    destruct He as [[He | He] | [[He | He] | [He | He]]].
    + destruct (Text.isEmpty (Text.trim (Validator.toString (Req.title b)))) eqn:H;
        [|destruct He]. destruct He as [E | []]. subst e. left. left. auto.
    + destruct (Nat.leb_spec
                  (Text.units (Text.trim (Validator.toString (Req.title b)))) 100)
        as [H | H]; [destruct He|]. destruct He as [E | []]. subst e.
      destruct (Nat.ltb_spec 100
                  (Text.chars (Text.trim (Validator.toString (Req.title b)))))
        as [G | G].
      * left. right. left. split; reflexivity.
      * right. left. split; [reflexivity | lia].
    + destruct (Text.isEmpty (Text.trim (Validator.toString (Req.content b)))) eqn:H;
        [|destruct He]. destruct He as [E | []]. subst e. left. right. right. left. auto.
    + destruct He.
    + destruct (Text.isEmpty (Text.trim (Validator.toString (Req.author b)))) eqn:H;
        [|destruct He]. destruct He as [E | []]. subst e.
      left. right. right. right. left. auto.
    + destruct (Nat.leb_spec
                  (Text.units (Text.trim (Validator.toString (Req.author b)))) 50)
        as [H | H]; [destruct He|]. destruct He as [E | []]. subst e.
      destruct (Nat.ltb_spec 50
                  (Text.chars (Text.trim (Validator.toString (Req.author b)))))
        as [G | G].
      * left. right. right. right. right. left. split; reflexivity.
      * right. right. split; [reflexivity | lia].
Qed.

(** ** What a request can do to the collection *)

Lemma router_effect (R : Runtime) (rq : Request) (w : World) :
  let w' := snd (router R rq w) in
  (issued w <= issued w')%nat /\ (ticks w <= ticks w')%nat /\
  (docs w' = docs w \/
   (exists b, validationResult b = [] /\ accepted b = true /\
              docs w' = docs w ++ [created R b w]) \/
   (exists i b, validationResult b = [] /\ accepted b = true /\
                docs w' = replaceOne i (updated R b w) (docs w)) \/
   (exists i, docs w' = removeOne i (docs w))).
Proof.
  destruct rq as [|id|b|id b|id]; simpl.
  - rewrite get_blogs_run. simpl. auto.
  - destruct (castObjectId R id) as [i|] eqn:E.
    + rewrite (get_blog_wellformed R id i w E). simpl. auto.
    + rewrite (get_blog_malformed R id w E). auto.
  - destruct (validationResult b) as [|e l] eqn:Hv.
    + rewrite (post_blog_valid R b w Hv). cbv zeta.
      destruct (accepted b) eqn:Ha;
        [destruct (reachable w &&
                   negb (existsb (eq_id (_id (created R b w))) (docs w)))|];
        simpl; (split; [lia|]); (split; [lia|]);
        [right; left; exists b; auto | auto | auto].
    + rewrite post_blog_invalid; [auto | rewrite Hv; discriminate].
  - destruct (validationResult b) as [|e l] eqn:Hv.
    + destruct (castObjectId R id) as [i|] eqn:E.
      * rewrite (put_blog_wellformed R id i b w Hv E).
        destruct (castable b) eqn:Ha1; [destruct (schema_valid b) eqn:Ha2|];
          simpl; (split; [lia|]); (split; [lia|]); auto.
        destruct (reachable w); [|auto].
        right; right; left. exists i, b. unfold accepted. rewrite Ha1, Ha2. auto.
      * rewrite (put_blog_malformed R id b w Hv E). simpl. auto.
    + rewrite put_blog_invalid; [auto | rewrite Hv; discriminate].
  - destruct (castObjectId R id) as [i|] eqn:E.
    + rewrite (delete_blog_wellformed R id i w E). simpl.
      split; [lia|]. split; [lia|].
      destruct (reachable w); [right; right; right; eauto | auto].
    + rewrite (delete_blog_malformed R id w E). auto.
Qed.

Lemma step_effect (R : Runtime) (e : Event) (w : World) :
  let w' := step R e w in
  (issued w <= issued w')%nat /\ (ticks w <= ticks w')%nat /\
  (docs w' = docs w \/
   (exists b, validationResult b = [] /\ accepted b = true /\
              docs w' = docs w ++ [created R b w]) \/
   (exists i b, validationResult b = [] /\ accepted b = true /\
                docs w' = replaceOne i (updated R b w) (docs w)) \/
   (exists i, docs w' = removeOne i (docs w))).
Proof.
  destruct e as [rq| |]; [apply router_effect | simpl; auto | simpl; auto].
Qed.

Lemma step_consistent (R : Runtime) (e : Event) (w : World) :
  fresh_ids R -> Consistent R w -> Consistent R (step R e w).
Proof.
  intros Hf Hc. destruct e as [rq| |]; simpl.
  - apply router_consistent; assumption.
  - apply (consistent_same_docs R w); simpl; auto.
  - apply (consistent_same_docs R w); simpl; auto.
Qed.

Lemma run_consistent (R : Runtime) (es : list Event) (w : World) :
  fresh_ids R -> Consistent R w -> Consistent R (run R es w).
Proof.
  intros Hf. revert w. induction es as [|e es IH]; intros w Hc; [exact Hc|].
  simpl. apply IH, step_consistent; assumption.
Qed.

(** ** Stored documents conform to the schema *)

Lemma conforms_fields (b : Req.body) (d : Blog) :
  validationResult b = [] -> accepted b = true ->
  title d = Text.trim (Validator.toString (Req.title b)) ->
  content d = Text.trim (Validator.toString (Req.content b)) ->
  author d = Text.trim (Validator.toString (Req.author b)) ->
  tags d = match Req.tags b with
           | Some (TagsArray l) => map Text.trim l
           | _ => []
           end ->
  conforms d = true.
Proof.
  intros Hv Hs Et Ec Ea Eg. apply schema_accepts in Hs.
  apply validation_passed in Hv. cbv zeta in Hv.
  destruct Hv as (H1 & _ & H3 & H4 & _ & _).
  unfold validatePaths, doValidate in Hs.
  cbn [required maxlength title_path content_path author_path blogSchema] in Hs.
  rewrite H1, H3, H4 in Hs. simpl in Hs.
  unfold conforms. rewrite Et, Ec, Ea, Eg, H1, H3, H4, !trim_not_padded.
  destruct (Text.units (Text.trim (Validator.toString (Req.title b))) <=? 100)%nat;
    [|discriminate].
  destruct (Text.units (Text.trim (Validator.toString (Req.author b))) <=? 50)%nat;
    [|discriminate].
  simpl.
  destruct (Req.tags b) as [[l|s|l r]|]; try reflexivity.
  clear. induction l as [|x l IH]; [reflexivity|].
  simpl. rewrite trim_not_padded. exact IH.
Qed.

Lemma step_conforms (R : Runtime) (e : Event) (w : World) :
  Forall (fun d => conforms d = true) (docs w) ->
  Forall (fun d => conforms d = true) (docs (step R e w)).
Proof.
  intros H.
  destruct (step_effect R e w)
    as (_ & _ & [E | [(b & Hv & Ha & E) | [(i & b & Hv & Ha & E) | (i & E)]]]);
    rewrite E; clear E.
  - exact H.
  - apply Forall_app. split; [exact H|]. constructor; [|constructor].
    apply (conforms_fields b); auto.
  - apply Forall_forall. intros d Hd. apply In_replaceOne in Hd.
    destruct Hd as [Hd | (old & _ & Hd)].
    + exact (proj1 (Forall_forall _ _) H d Hd).
    + subst d. apply (conforms_fields b); auto.
  - apply Forall_forall. intros d Hd. apply In_removeOne in Hd.
    exact (proj1 (Forall_forall _ _) H d Hd).
Qed.

(** X9: whatever requests the service has served since it started, with
    whatever outages in between, every stored document satisfies the
    constraints of the schema: title, content and author are non-empty and
    carry no surrounding whitespace, the title has at most 100 and the author
    at most 50 characters (code units, as the schema counts them), and no tag
    carries surrounding whitespace. *)
Theorem served_documents_conform (R : Runtime) (es : list Event) (up : bool) :
  Forall (fun d => conforms d = true) (docs (run R es (started up))).
Proof.
  assert (G : forall w, Forall (fun d => conforms d = true) (docs w) ->
                        Forall (fun d => conforms d = true) (docs (run R es w))).
  { induction es as [|e es IH]; intros w H; [exact H|].
    simpl. apply IH, step_conforms, H. }
  apply G. constructor.
Qed.

(** X10: in every world the service reaches from its start, with an
    identifier generator that never repeats and a clock that never runs
    backwards, no two stored documents share an identifier and every stored
    document has [createdAt <= updatedAt]. *)
Theorem served_ids_unique_dates_ordered (R : Runtime) (es : list Event) (up : bool) :
  fresh_ids R -> monotone R ->
  let w := run R es (started up) in
  NoDup (map _id (docs w)) /\
  forall d, In d (docs w) -> (createdAt d <= updatedAt d)%Z.
Proof.
  intros Hf Hm w.
  assert (Hc : Consistent R w)
    by (apply run_consistent; [exact Hf | apply empty_consistent]).
  split; [apply (ids_unique R w Hc)|].
  intros d Hd. destruct (dates_read R w Hc d Hd) as (i & j & Hij & E1 & E2).
  rewrite E1, E2. apply Hm. lia.
Qed.

Lemma served_ids_unique_dates_ordered_witness :
  let w := run Sample.live
             [Serves (POST_blog Sample.hello); Outage;
              Serves (POST_blog Sample.untagged); Recovery;
              Serves (POST_blog Sample.neat);
              Serves (PUT_blog Sample.first_id Sample.neat)]
             (started true) in
  NoDup (map _id (docs w)) /\
  forall d, In d (docs w) -> (createdAt d <= updatedAt d)%Z.
Proof.
  apply (served_ids_unique_dates_ordered Sample.live).
  - apply counting_fresh.
  - apply ticking_monotone.
Defined.

(** ** Identifiers and creation dates over a run *)

Lemma find_app_none (j : ObjectId) (l : list Blog) (x : Blog) :
  find (eq_id j) l = None ->
  find (eq_id j) (l ++ [x]) = if eq_id j x then Some x else None.
Proof.
  induction l as [|y l IH]; simpl; [reflexivity|].
  destruct (eq_id j y); [discriminate | exact IH].
Qed.

Section Run.

Variable R : Runtime.
Hypothesis fresh : fresh_ids R.

Lemma step_absent (e : Event) (w : World) (j : ObjectId) :
  (exists k, (k < issued w)%nat /\ j = newObjectId R k) ->
  find (eq_id j) (docs w) = None ->
  find (eq_id j) (docs (step R e w)) = None.
Proof.
  intros (k & Hk & Ej) Hn.
  destruct (step_effect R e w)
    as (_ & _ & [E | [(b & Hv & Ha & E) | [(i & b & Hv & Ha & E) | (i & E)]]]);
    rewrite E; clear E.
  - exact Hn.
  - rewrite (find_app_none j _ _ Hn). unfold eq_id. simpl.
    destruct (N.eqb_spec (newObjectId R (issued w)) j) as [E|]; [|reflexivity].
    rewrite Ej in E. apply fresh in E. lia.
  - destruct (N.eq_dec j i) as [E | E].
    + subst i. rewrite find_replaceOne_same by reflexivity. rewrite Hn. reflexivity.
    + rewrite find_replaceOne_other by (reflexivity || exact E). exact Hn.
  - destruct (N.eq_dec j i) as [E | E].
    + subst i. rewrite (removeOne_absent j _ Hn). exact Hn.
    + rewrite (find_removeOne_other i j _ E). exact Hn.
Qed.

Lemma run_absent (es : list Event) (w : World) (j : ObjectId) :
  (exists k, (k < issued w)%nat /\ j = newObjectId R k) ->
  find (eq_id j) (docs w) = None ->
  find (eq_id j) (docs (run R es w)) = None.
Proof.
  revert w. induction es as [|e es IH]; intros w Hk Hn; [exact Hn|].
  simpl. apply IH.
  - destruct Hk as (k & Hk & Ej). exists k. split; [|exact Ej].
    destruct (step_effect R e w) as (Hi & _). lia.
  - apply step_absent; assumption.
Qed.

Lemma step_kept (e : Event) (w : World) (j : ObjectId) (d d' : Blog) :
  NoDup (map _id (docs w)) ->
  find (eq_id j) (docs w) = Some d ->
  find (eq_id j) (docs (step R e w)) = Some d' ->
  _id d' = _id d /\ createdAt d' = createdAt d.
Proof.
  intros Hu Hd.
  destruct (step_effect R e w)
    as (_ & _ & [E | [(b & Hv & Ha & E) | [(i & b & Hv & Ha & E) | (i & E)]]]);
    rewrite E; clear E.
  - rewrite Hd. intros H. inversion H. auto.
  - rewrite (find_app_old j _ d _ Hd). intros H. inversion H. auto.
  - destruct (N.eq_dec j i) as [E | E].
    + subst j. rewrite find_replaceOne_same by reflexivity. rewrite Hd. simpl.
      intros H. inversion H. auto.
    + rewrite find_replaceOne_other by (reflexivity || exact E).
      rewrite Hd. intros H. inversion H. auto.
  - destruct (N.eq_dec j i) as [E | E].
    + subst j. rewrite (find_removeOne i _ Hu). discriminate.
    + rewrite (find_removeOne_other i j _ E), Hd. intros H. inversion H. auto.
Qed.

Lemma run_kept (es : list Event) (w : World) (j : ObjectId) (d d' : Blog) :
  Consistent R w ->
  find (eq_id j) (docs w) = Some d ->
  find (eq_id j) (docs (run R es w)) = Some d' ->
  _id d' = _id d /\ createdAt d' = createdAt d.
Proof.
  revert w d. induction es as [|e es IH]; intros w d Hc Hd Hd'.
  - simpl in Hd'. rewrite Hd in Hd'. inversion Hd'. auto.
  - simpl in Hd'. destruct (find (eq_id j) (docs (step R e w))) as [d1|] eqn:F.
    + destruct (step_kept e w j d d1 (ids_unique R w Hc) Hd F) as [E1 E2].
      destruct (IH (step R e w) d1 (step_consistent R e w fresh Hc) F Hd') as [E3 E4].
      split; congruence.
    + rewrite run_absent in Hd'; [discriminate | | exact F].
      apply find_eq_id in Hd. destruct Hd as [Hin Ej].
      destruct (ids_issued R w Hc d Hin) as (k & Hk & Ek).
      exists k. split; [|congruence].
      destruct (step_effect R e w) as (Hi & _). lia.
Qed.

End Run.

(** X11: the creation date of an entity never changes: whatever the service
    serves after an entity is stored, as long as its identifier is found, it
    is found with the same [_id] and the same [createdAt]. *)
Theorem createdAt_never_changes (R : Runtime) (es : list Event) (w : World)
    (id : string) (d d' : Blog) :
  fresh_ids R -> Consistent R w ->
  lookup R id w = Some d ->
  lookup R id (run R es w) = Some d' ->
  _id d' = _id d /\ createdAt d' = createdAt d.
Proof.
  intros Hf Hc. unfold lookup.
  destruct (castObjectId R id) as [i|]; [|discriminate].
  apply run_kept; assumption.
Qed.

Lemma createdAt_never_changes_witness :
  exists d d',
    lookup Sample.live Sample.first_id Sample.live_seeded = Some d /\
    lookup Sample.live Sample.first_id
      (run Sample.live [Serves (PUT_blog Sample.first_id Sample.hello);
                        Serves (POST_blog Sample.neat)] Sample.live_seeded) = Some d' /\
    updatedAt d' <> updatedAt d /\
    _id d' = _id d /\ createdAt d' = createdAt d.
Proof.
  exists (mkBlog 1000%N "Hello" "first post" "ann" []
                 1700000000000%Z 1700000000002%Z).
  exists (mkBlog 1000%N "Hello" "first post" "ann" ["news"; "rocq"]
                 1700000000000%Z 1700000000003%Z).
  split; [vm_compute; reflexivity|]. split; [vm_compute; reflexivity|].
  split; [vm_compute; discriminate|].
  apply (createdAt_never_changes Sample.live
           [Serves (PUT_blog Sample.first_id Sample.hello);
            Serves (POST_blog Sample.neat)]
           Sample.live_seeded Sample.first_id).
  - apply counting_fresh.
  - apply seeded_consistent.
  - vm_compute; reflexivity.
  - vm_compute; reflexivity.
Defined.

(** X12: the identifier of a deleted entity is never found again, whatever
    the service serves afterwards: no later creation reuses it. *)
Theorem deleted_id_never_returns (R : Runtime) (es : list Event) (w : World)
    (id : string) (d : Blog) :
  fresh_ids R -> Consistent R w -> reachable w = true ->
  lookup R id w = Some d ->
  lookup R id (run R es (snd (delete_blog R id w))) = None.
Proof.
  intros Hf Hc Hr Hl.
  destruct (delete_blog_found R id w d Hc Hr Hl) as (w' & E & _ & _ & Hn & _).
  rewrite E. simpl. unfold lookup in *.
  destruct (castObjectId R id) as [i|] eqn:C; [|reflexivity].
  apply run_absent; [exact Hf | | exact Hn].
  apply find_eq_id in Hl. destruct Hl as [Hin Ei].
  destruct (ids_issued R w Hc d Hin) as (k & Hk & Ek).
  exists k. split; [|congruence].
  rewrite (delete_blog_wellformed R id i w C) in E. inversion E. simpl. exact Hk.
Qed.

Lemma deleted_id_never_returns_witness :
  lookup Sample.live Sample.first_id
    (run Sample.live [Serves (POST_blog Sample.hello); Serves (POST_blog Sample.neat)]
       (snd (delete_blog Sample.live Sample.first_id Sample.live_seeded))) = None.
Proof.
  apply (deleted_id_never_returns Sample.live
           [Serves (POST_blog Sample.hello); Serves (POST_blog Sample.neat)]
           Sample.live_seeded Sample.first_id
           (mkBlog 1000%N "Hello" "first post" "ann" []
                   1700000000000%Z 1700000000002%Z)).
  - apply counting_fresh.
  - apply seeded_consistent.
  - vm_compute; reflexivity.
  - vm_compute; reflexivity.
Defined.

(** ** Statuses *)

(** X13: each route answers only with the statuses of its own: the list 200
    or 500, the creation 201, 400 or 500, and the fetch, the update and the
    delete 200, 400, 404 or 500. *)
Theorem status_per_route (R : Runtime) (rq : Request) (w : World) :
  In (status (fst (router R rq w))) (statuses rq).
Proof.
  destruct rq as [|id|b|id b|id]; simpl.
  - rewrite get_blogs_run. destruct (reachable w); simpl; tauto.
  - destruct (castObjectId R id) as [i|] eqn:E.
    + rewrite (get_blog_wellformed R id i w E).
      destruct (reachable w); [destruct (find (eq_id i) (docs w))|]; simpl; tauto.
    + rewrite (get_blog_malformed R id w E). simpl; tauto.
  - destruct (validationResult b) as [|e l] eqn:Hv.
    + rewrite (post_blog_valid R b w Hv). cbv zeta.
      destruct (accepted b);
        [destruct (reachable w &&
                   negb (existsb (eq_id (_id (created R b w))) (docs w)))|];
        simpl; tauto.
    + rewrite post_blog_invalid; [simpl; tauto | rewrite Hv; discriminate].
  - destruct (validationResult b) as [|e l] eqn:Hv.
    + destruct (castObjectId R id) as [i|] eqn:E.
      * rewrite (put_blog_wellformed R id i b w Hv E).
        destruct (castable b);
          [destruct (schema_valid b);
           [destruct (reachable w); [destruct (find (eq_id i) (docs w))|]|]|];
          simpl; tauto.
      * rewrite (put_blog_malformed R id b w Hv E). simpl; tauto.
    + rewrite put_blog_invalid; [simpl; tauto | rewrite Hv; discriminate].
  - destruct (castObjectId R id) as [i|] eqn:E.
    + rewrite (delete_blog_wellformed R id i w E).
      destruct (reachable w); [destruct (find (eq_id i) (docs w))|]; simpl; tauto.
    + rewrite (delete_blog_malformed R id w E). simpl; tauto.
Qed.

(** X14: in a consistent world a request is answered 500 exactly when it
    gets as far as the storage layer (its body passes validation, its
    identifier is well-formed, the schema takes the body) and the storage
    layer is unreachable, or when its body passed validation and the schema
    then stops it: a creation the schema does not take, an update whose
    texts the validators of the schema reject. *)
Theorem server_error_iff (R : Runtime) (rq : Request) (w : World) :
  fresh_ids R -> Consistent R w ->
  (status (fst (router R rq w)) = 500%Z <->
   (reachable w = false /\ reaches_storage R rq = true) \/
   rejected_by_schema R rq = true).
Proof.
  intros Hf Hc.
  assert (Hu : existsb (eq_id (_id (created R (Req.mkBody None None None None) w)))
                 (docs w) = false)
    by (apply existsb_unused, (consistent_unused R w Hf Hc)).
  simpl in Hu.
  destruct rq as [|id|b|id b|id]; simpl;
    unfold reaches_storage, rejected_by_schema, wellFormed, passes, accepted.
  - rewrite get_blogs_run. destruct (reachable w); simpl; intuition congruence.
  - destruct (castObjectId R id) as [i|] eqn:E.
    + rewrite (get_blog_wellformed R id i w E).
      destruct (reachable w); [destruct (find (eq_id i) (docs w))|]; simpl;
        intuition congruence.
    + rewrite (get_blog_malformed R id w E). simpl. intuition congruence.
  - destruct (validationResult b) as [|e l] eqn:Hv.
    + rewrite (post_blog_valid R b w Hv). cbv zeta. unfold accepted.
      simpl (_id _). rewrite Hu.
      destruct (castable b); destruct (schema_valid b); destruct (reachable w);
        simpl; intuition congruence.
    + rewrite post_blog_invalid by (rewrite Hv; discriminate). simpl.
      intuition congruence.
  - destruct (validationResult b) as [|e l] eqn:Hv.
    + destruct (castObjectId R id) as [i|] eqn:E.
      * rewrite (put_blog_wellformed R id i b w Hv E).
        destruct (castable b); destruct (schema_valid b); destruct (reachable w);
          try destruct (find (eq_id i) (docs w)); simpl; intuition congruence.
      * rewrite (put_blog_malformed R id b w Hv E). simpl. intuition congruence.
    + rewrite put_blog_invalid by (rewrite Hv; discriminate). simpl.
      intuition congruence.
  - destruct (castObjectId R id) as [i|] eqn:E.
    + rewrite (delete_blog_wellformed R id i w E).
      destruct (reachable w); [destruct (find (eq_id i) (docs w))|]; simpl;
        intuition congruence.
    + rewrite (delete_blog_malformed R id w E). simpl. intuition congruence.
Qed.

Lemma server_error_iff_witness :
  status (fst (router Sample.live (POST_blog Sample.smileys) Sample.empty)) = 500%Z
  <-> (reachable Sample.empty = false /\
       reaches_storage Sample.live (POST_blog Sample.smileys) = true) \/
      rejected_by_schema Sample.live (POST_blog Sample.smileys) = true.
Proof.
  apply (server_error_iff Sample.live (POST_blog Sample.smileys) Sample.empty).
  - apply counting_fresh.
  - apply empty_consistent.
Defined.

(** ** Texts without surrounding whitespace *)

Lemma rtrim_fixed (s : Text.t) :
  match Text.last s with
  | Some x => Text.isSpace x = false
  | None => True
  end -> Text.rtrim s = s.
Proof.
  induction s as [|c s IH]; [reflexivity|].
  destruct s as [|a t].
  - simpl. intros H. rewrite H. reflexivity.
  - intros H. change (Text.last (c :: a :: t)) with (Text.last (a :: t)) in H.
    rewrite rtrim_cons2, (IH H). reflexivity.
Qed.

Lemma last_nonempty (c : N) (s : Text.t) : Text.last (c :: s) <> None.
Proof.
  revert c. induction s as [|a t IH]; intros c; [discriminate|].
  change (Text.last (c :: a :: t)) with (Text.last (a :: t)). apply IH.
Qed.

Lemma unpadded_trim (s : Text.t) : Text.padded s = false -> Text.trim s = s.
Proof.
  destruct s as [|c s]; [reflexivity|].
  unfold Text.padded. simpl Text.first.
  pose proof (last_nonempty c s) as Hn.
  destruct (Text.last (c :: s)) as [x|] eqn:L; [|contradiction].
  intros H. apply orb_false_iff in H. destruct H as [Hc Hx].
  unfold Text.trim. simpl Text.ltrim. rewrite Hc.
  apply rtrim_fixed. rewrite L. exact Hx.
Qed.

Lemma unpadded_tags (l : list Text.t) :
  forallb (fun t => negb (Text.padded t)) l = true -> map Text.trim l = l.
Proof.
  induction l as [|x l IH]; [reflexivity|].
  simpl. intros H. apply andb_true_iff in H. destruct H as [Hx Hl].
  apply negb_true_iff in Hx. rewrite (unpadded_trim x Hx), (IH Hl). reflexivity.
Qed.

Lemma conforms_resubmits (d : Blog) :
  conforms d = true ->
  validationResult (body_of d) = [] /\
  accepted (body_of d) = true /\
  Text.trim (title d) = title d /\
  Text.trim (content d) = content d /\
  Text.trim (author d) = author d /\
  map Text.trim (tags d) = tags d.
Proof.
  unfold conforms. intros H.
  repeat match goal with
  | X : _ && _ = true |- _ => apply andb_true_iff in X; destruct X
  end.
  repeat match goal with
  | X : negb _ = true |- _ => apply negb_true_iff in X
  end.
  assert (Et : Text.trim (title d) = title d) by (apply unpadded_trim; assumption).
  assert (Ec : Text.trim (content d) = content d) by (apply unpadded_trim; assumption).
  assert (Ea : Text.trim (author d) = author d) by (apply unpadded_trim; assumption).
  assert (Ct : (Text.chars (title d) <=? 100)%nat = true).
  { apply Nat.leb_le. pose proof (chars_le_units (title d)).
    match goal with
    | X : (Text.units (title d) <=? 100)%nat = true |- _ => apply Nat.leb_le in X; lia
    end. }
  assert (Ca : (Text.chars (author d) <=? 50)%nat = true).
  { apply Nat.leb_le. pose proof (chars_le_units (author d)).
    match goal with
    | X : (Text.units (author d) <=? 50)%nat = true |- _ => apply Nat.leb_le in X; lia
    end. }
  split; [|split; [|repeat split; try assumption; apply unpadded_tags; assumption]].
  - rewrite validationResult_eq. cbv zeta.
    unfold body_of, Validator.notEmpty, Validator.isLength_max. simpl.
    rewrite Et, Ec, Ea, Ct, Ca.
    repeat match goal with
    | X : Text.isEmpty _ = false |- _ => rewrite X
    end.
    reflexivity.
  - unfold accepted. apply andb_true_iff. split; [reflexivity|].
    rewrite schema_valid_eq. unfold body_of. simpl.
    rewrite Et, Ec, Ea. unfold validatePaths, doValidate.
    cbn [required maxlength title_path content_path author_path blogSchema].
    repeat match goal with
    | X : Text.isEmpty _ = false |- _ => rewrite X
    | X : (Text.units _ <=? _)%nat = true |- _ => rewrite X
    end.
    reflexivity.
Qed.

(** X15: an update that sends an entity its own title, content, author and
    tags back passes validation and changes nothing of the entity but
    [updatedAt]: what the service stores is a fixed point of its
    sanitizers. *)
Theorem update_with_own_fields (R : Runtime) (id : string) (w : World) (d : Blog) :
  conforms d = true -> reachable w = true ->
  lookup R id w = Some d ->
  validationResult (body_of d) = [] /\
  fst (put_blog R id (body_of d) w) =
    mkResponse 200 [("success", VBool true);
                    ("message", VStr "Blog updated successfully");
                    ("data", VDoc (set_updatedAt (clock R (ticks w)) d))].
Proof.
  intros Hc Hr Hl.
  destruct (conforms_resubmits d Hc) as (Hv & Ha & Et & Ec & Ea & Eg).
  split; [exact Hv|]. unfold lookup in Hl.
  destruct (castObjectId R id) as [i|] eqn:C; [|discriminate].
  rewrite (put_blog_updated R id i (body_of d) w d Hr Hv Ha C Hl). simpl.
  unfold updated, set_updatedAt. simpl. rewrite Et, Ec, Ea, Eg. reflexivity.
Qed.

Lemma update_with_own_fields_witness :
  exists d,
    lookup Sample.live Sample.first_id Sample.live_seeded = Some d /\
    validationResult (body_of d) = [] /\
    fst (put_blog Sample.live Sample.first_id (body_of d) Sample.live_seeded) =
      mkResponse 200 [("success", VBool true);
                      ("message", VStr "Blog updated successfully");
                      ("data", VDoc (set_updatedAt
                                       (clock Sample.live (ticks Sample.live_seeded)) d))].
Proof.
  exists (mkBlog 1000%N "Hello" "first post" "ann" []
                 1700000000000%Z 1700000000002%Z).
  split; [vm_compute; reflexivity|].
  apply (update_with_own_fields Sample.live Sample.first_id Sample.live_seeded).
  - vm_compute; reflexivity.
  - vm_compute; reflexivity.
  - vm_compute; reflexivity.
Defined.

(** X16: a creation that passes validation, that the schema takes, and
    whose texts carry no surrounding whitespace stores them as supplied: the
    entity fetched by the returned id right after has the title, content,
    author and tags of the request, field for field. *)
Theorem create_roundtrip_unpadded (R : Runtime) (b : Req.body) (w : World) :
  fresh_ids R -> Consistent R w -> reachable w = true ->
  validationResult b = [] -> accepted b = true ->
  unpadded b = true ->
  castObjectId R (showObjectId R (newObjectId R (issued w))) =
    Some (newObjectId R (issued w)) ->
  exists d,
    field "data" (json (fst (post_blog R b w))) = Some (VDoc d) /\
    fst (get_blog R (showObjectId R (_id d)) (snd (post_blog R b w))) =
      mkResponse 200 [("success", VBool true); ("data", VDoc d)] /\
    Req.title b = Some (title d) /\
    Req.content b = Some (content d) /\
    Req.author b = Some (author d) /\
    tags d = match Req.tags b with
             | Some (TagsArray l) => l
             | _ => []
             end.
Proof.
  intros Hf Hc Hr Hv Ha Hu Hs. exists (created R b w).
  rewrite (post_blog_created R b w Hf Hc Hr Hv Ha). simpl.
  split; [reflexivity|]. split.
  - rewrite (get_blog_wellformed R _ _ _ Hs). simpl.
    change (newObjectId R (issued w)) with (_id (created R b w)).
    rewrite find_appended; [reflexivity|].
    apply existsb_unused, (consistent_unused R w Hf Hc).
  - apply validation_passed in Hv. cbv zeta in Hv.
    destruct Hv as (H1 & _ & H3 & H4 & _ & _).
    unfold unpadded in Hu.
    repeat match goal with
    | X : _ && _ = true |- _ => apply andb_true_iff in X; destruct X
    end.
    repeat match goal with
    | X : negb _ = true |- _ => apply negb_true_iff in X
    end.
    destruct (Req.title b) as [t|]; [|discriminate].
    destruct (Req.content b) as [c|]; [|discriminate].
    destruct (Req.author b) as [a|]; [|discriminate].
    simpl in *. rewrite !unpadded_trim by assumption.
    repeat split.
    destruct (Req.tags b) as [[l|s|l r]|]; try reflexivity.
    apply unpadded_tags. assumption.
Qed.

Lemma create_roundtrip_unpadded_witness :
  exists d,
    field "data" (json (fst (post_blog Sample.live Sample.neat Sample.empty)))
      = Some (VDoc d) /\
    fst (get_blog Sample.live (showObjectId Sample.live (_id d))
           (snd (post_blog Sample.live Sample.neat Sample.empty))) =
      mkResponse 200 [("success", VBool true); ("data", VDoc d)] /\
    Req.title Sample.neat = Some (title d) /\
    Req.content Sample.neat = Some (content d) /\
    Req.author Sample.neat = Some (author d) /\
    tags d = match Req.tags Sample.neat with
             | Some (TagsArray l) => l
             | _ => []
             end.
Proof.
  apply (create_roundtrip_unpadded Sample.live Sample.neat Sample.empty).
  - apply counting_fresh.
  - apply empty_consistent.
  - reflexivity.
  - vm_compute; reflexivity.
  - vm_compute; reflexivity.
  - vm_compute; reflexivity.
  - vm_compute; reflexivity.
Defined.


(** X17: what the handlers answer when a body passes the validation chains
    and the schema does not take it.  A creation is answered 500 "Error
    creating blog".  An update of a well-formed identifier whose tags cannot
    be cast is answered 400 "Invalid blog ID", the answer to a malformed
    identifier; one whose tags can be cast and whose texts the validators of
    the schema reject is answered 500 "Error updating blog".  None of them
    changes the collection or calls the storage layer. *)
Theorem schema_refusal_responses (R : Runtime) (id : string) (b : Req.body)
    (w : World) :
  validationResult b = [] ->
  (accepted b = false ->
     fst (post_blog R b w) = server_error "Error creating blog" /\
     docs (snd (post_blog R b w)) = docs w /\
     trace (snd (post_blog R b w)) = trace w) /\
  (wellFormed R id = true -> castable b = false ->
     fst (put_blog R id b w) = invalid_id /\
     docs (snd (put_blog R id b w)) = docs w /\
     trace (snd (put_blog R id b w)) = trace w) /\
  (wellFormed R id = true -> castable b = true -> schema_valid b = false ->
     fst (put_blog R id b w) = server_error "Error updating blog" /\
     docs (snd (put_blog R id b w)) = docs w /\
     trace (snd (put_blog R id b w)) = trace w).
Proof.
  intros Hv. unfold wellFormed. split; [|split].
  - intros Ha. rewrite (post_blog_valid R b w Hv). cbv zeta. rewrite Ha.
    repeat split.
  - destruct (castObjectId R id) as [i|] eqn:E; [|discriminate]. intros _ Ha.
    rewrite (put_blog_wellformed R id i b w Hv E), Ha. repeat split.
  - destruct (castObjectId R id) as [i|] eqn:E; [|discriminate]. intros _ Ha1 Ha2.
    rewrite (put_blog_wellformed R id i b w Hv E), Ha1, Ha2. repeat split.
Qed.

Lemma schema_refusal_responses_witness :
  (fst (post_blog Sample.live Sample.smileys Sample.live_seeded) =
     server_error "Error creating blog" /\
   docs (snd (post_blog Sample.live Sample.smileys Sample.live_seeded)) =
     docs Sample.live_seeded /\
   trace (snd (post_blog Sample.live Sample.smileys Sample.live_seeded)) =
     trace Sample.live_seeded) /\
  (fst (put_blog Sample.live Sample.first_id Sample.tagged_object Sample.live_seeded) =
     invalid_id /\
   docs (snd (put_blog Sample.live Sample.first_id Sample.tagged_object
                Sample.live_seeded)) = docs Sample.live_seeded /\
   trace (snd (put_blog Sample.live Sample.first_id Sample.tagged_object
                 Sample.live_seeded)) = trace Sample.live_seeded) /\
  (fst (put_blog Sample.live Sample.first_id Sample.smileys Sample.live_seeded) =
     server_error "Error updating blog" /\
   docs (snd (put_blog Sample.live Sample.first_id Sample.smileys
                Sample.live_seeded)) = docs Sample.live_seeded /\
   trace (snd (put_blog Sample.live Sample.first_id Sample.smileys
                 Sample.live_seeded)) = trace Sample.live_seeded).
Proof.
  split; [|split].
  - assert (Hv : validationResult Sample.smileys = []) by (vm_compute; reflexivity).
    destruct (schema_refusal_responses Sample.live Sample.first_id Sample.smileys
                Sample.live_seeded Hv) as (H & _ & _).
    apply H. vm_compute. reflexivity.
  - assert (Hv : validationResult Sample.tagged_object = [])
      by (vm_compute; reflexivity).
    destruct (schema_refusal_responses Sample.live Sample.first_id
                Sample.tagged_object Sample.live_seeded Hv) as (_ & H & _).
    apply H; vm_compute; reflexivity.
  - assert (Hv : validationResult Sample.smileys = []) by (vm_compute; reflexivity).
    destruct (schema_refusal_responses Sample.live Sample.first_id Sample.smileys
                Sample.live_seeded Hv) as (_ & _ & H).
    apply H; vm_compute; reflexivity.
Defined.
